(** * docs/main.go: the document rendering handler

    A shallow embedding of the Lambda handler of [docs/main.go] and of the
    parts of the Go standard library it calls ([strings.Contains],
    [bufio.Scanner] with [bufio.ScanLines], [time.Time.Format] with the
    layout [time.RFC850], the execution of a [text/template] tree), followed
    by the properties of the handler.

    Conventions.  A Go [string] is a [string]; a Go [[]byte] is a
    [list byte]; the conversions [string(b)] and [[]byte(s)] are
    [string_of_list_byte] and [list_byte_of_string].  A Go [int] is a [Z].
    A Go [error] is an [option error], [None] being [nil].  A
    [map[string]string] is a [gmap string string]; reading a missing key
    gives the empty string. *)

From Stdlib Require Import ZArith Lia List.
From Stdlib Require Import Strings.String Strings.Ascii Strings.Byte.
From Stdlib Require Import DecimalString.
From stdpp Require Import gmap strings list.

Local Open Scope string_scope.
Local Open Scope Z_scope.

(** ** Errors

    The handler never inspects an error: it only tests it against [nil],
    logs it and hands it back.  The kinds below are the ones the
    collaborators produce. *)

Inductive error : Type :=
  | NotFound                      (* the store has no such document *)
  | StorageUnavailable            (* the store could not be reached *)
  | ReadError                     (* reading a revision's content failed *)
  | TemplateInvalid (msg : string)  (* template.Parse rejected the source *)
  | ExecError (field : string)    (* can't evaluate field ... *)
  | ErrTooLong                    (* bufio.Scanner: token too long *)
  | ErrNegativeAdvance            (* bufio.Scanner: negative advance count *)
  | ErrAdvanceTooFar              (* bufio.Scanner: advance beyond input *)
  | EOF.                          (* io.EOF *)

(** [err != nil]. *)
Definition notNil (e : option error) : bool :=
  match e with
  | Some _ => true
  | None => false
  end.

Inductive result (A : Type) : Type :=
  | Ok (a : A)
  | Err (e : error).
Arguments Ok {A} a.
Arguments Err {A} e.

(** ** Package strings *)

Module strings.

(** [strings.HasPrefix(s, prefix)]. *)
Fixpoint HasPrefix (s prefix : string) {struct prefix} : bool :=
  match prefix with
  | EmptyString => true
  | String c prefix' =>
      match s with
      | EmptyString => false
      | String d s' => Ascii.eqb d c && HasPrefix s' prefix'
      end
  end.

(** [strings.Index(s, substr)]: the index of the first instance of
    [substr] in [s], or -1. *)
Fixpoint Index (s substr : string) : Z :=
  if HasPrefix s substr then 0
  else match s with
       | EmptyString => -1
       | String _ s' =>
           let i := Index s' substr in
           if i <? 0 then -1 else 1 + i
       end.

(** [strings.Contains(s, substr)] is [Index(s, substr) >= 0]. *)
Definition Contains (s substr : string) : bool := 0 <=? Index s substr.

End strings.

(** The spec's [RenderMode], and the classification the handler makes with
    its test [strings.Contains(docId, ".")]. *)

Inductive RenderMode : Type := Raw | MarkdownTemplated.

Definition classify (docId : string) : RenderMode :=
  if strings.Contains docId "." then Raw else MarkdownTemplated.

(** [s] has a literal dot among its characters. *)
Definition has_dot (s : string) : Prop :=
  In "."%char (list_ascii_of_string s).

(** ** Package strconv *)

Module strconv.

(** [strconv.Itoa(i)]: the decimal rendering of [i], with a leading [-]
    when [i] is negative. *)
Definition Itoa (i : Z) : string :=
  DecimalString.NilZero.string_of_int (Z.to_int i).

End strconv.

(** ** Package time

    A [Time] is an instant, in seconds since the Unix epoch, together with
    the zone its location gives at that instant (abbreviation and offset
    east of UTC in seconds); this is what [Time.Format] reads from a
    [time.Time].  The civil date is the proleptic Gregorian one, as in Go,
    computed here through 400-year eras. *)

Module time.

Record Time : Type := mkTime {
  unixSec : Z;
  zoneName : string;
  zoneOffset : Z
}.

Definition UTC (sec : Z) : Time := mkTime sec "UTC" 0.

Definition secondsPerDay : Z := 86400.

(** Seconds since the epoch on the wall clock of the zone. *)
Definition abs (t : Time) : Z := unixSec t + zoneOffset t.

Definition days (t : Time) : Z := abs t / secondsPerDay.

Definition Hour (t : Time) : Z := (abs t mod secondsPerDay) / 3600.
Definition Minute (t : Time) : Z := (abs t mod 3600) / 60.
Definition Second (t : Time) : Z := abs t mod 60.

(** [Weekday]: Sunday is 0; 1 January 1970 was a Thursday. *)
Definition Weekday (t : Time) : Z := (days t + 4) mod 7.

(** The date of a day number counted from 1 January 1970: the year, the
    month (1 to 12) and the day of the month (1 to 31). *)
Definition civil (d : Z) : Z * Z * Z :=
  let z := d + 719468 in
  let era := z / 146097 in
  let doe := z - era * 146097 in
  let yoe := (doe - doe / 1460 + doe / 36524 - doe / 146096) / 365 in
  let doy := doe - (365 * yoe + yoe / 4 - yoe / 100) in
  let mp := (5 * doy + 2) / 153 in
  let day := doy - (153 * mp + 2) / 5 + 1 in
  let month := if mp <? 10 then mp + 3 else mp - 9 in
  let year := yoe + era * 400 + (if month <=? 2 then 1 else 0) in
  (year, month, day).

Definition Year (t : Time) : Z := fst (fst (civil (days t))).
Definition Month (t : Time) : Z := snd (fst (civil (days t))).
Definition Day (t : Time) : Z := snd (civil (days t)).

Definition longDayNames : list string :=
  ["Sunday"; "Monday"; "Tuesday"; "Wednesday"; "Thursday"; "Friday";
   "Saturday"].

Definition longMonthNames : list string :=
  ["January"; "February"; "March"; "April"; "May"; "June"; "July";
   "August"; "September"; "October"; "November"; "December"].

Definition WeekdayString (d : Z) : string :=
  nth (Z.to_nat d) longDayNames "".

Definition MonthString (m : Z) : string :=
  nth (Z.to_nat (m - 1)) longMonthNames "".

(** [s[:3]]. *)
Definition short (s : string) : string := substring 0 3 s.

(** The layout of RFC 850, the constant [time.RFC850]. *)
Definition RFC850 : string := "Monday, 02-Jan-06 15:04:05 MST".

(** The reference-time elements a layout is cut into.  The elements of
    the layouts of numeric zones ([-0700], [Z07:00]), of fractional
    seconds, of the day of the year and of space padding ([_2]) are not
    modelled; none of them occurs in [RFC850]. *)
Inductive std : Type :=
  | stdLongMonth | stdMonth | stdNumMonth | stdZeroMonth
  | stdLongWeekDay | stdWeekDay
  | stdDay | stdZeroDay
  | stdHour | stdHour12 | stdZeroHour12
  | stdMinute | stdZeroMinute
  | stdSecond | stdZeroSecond
  | stdLongYear | stdYear
  | stdPM | stdpm
  | stdTZ.

Inductive chunk : Type :=
  | Lit (c : ascii)
  | Std (s : std).

Definition startsWithLowerCase (s : string) : bool :=
  match s with
  | EmptyString => false
  | String c _ => (("a" <=? c) && (c <=? "z"))%char
  end.

(** The element that starts at the head of [layout], with its length:
    one pass of the switch of [nextStdChunk]. *)
Definition stdAt (layout : string) : option (std * nat) :=
  match layout with
  | String "J" _ =>
      if strings.HasPrefix layout "January" then Some (stdLongMonth, 7%nat)
      else if strings.HasPrefix layout "Jan"
              && negb (startsWithLowerCase (substring 3 1 layout))
           then Some (stdMonth, 3%nat)
      else None
  | String "M" _ =>
      if strings.HasPrefix layout "Monday" then Some (stdLongWeekDay, 6%nat)
      else if strings.HasPrefix layout "Mon"
              && negb (startsWithLowerCase (substring 3 1 layout))
           then Some (stdWeekDay, 3%nat)
      else if strings.HasPrefix layout "MST" then Some (stdTZ, 3%nat)
      else None
  | String "0" (String "1" _) => Some (stdZeroMonth, 2%nat)
  | String "0" (String "2" _) => Some (stdZeroDay, 2%nat)
  | String "0" (String "3" _) => Some (stdZeroHour12, 2%nat)
  | String "0" (String "4" _) => Some (stdZeroMinute, 2%nat)
  | String "0" (String "5" _) => Some (stdZeroSecond, 2%nat)
  | String "0" (String "6" _) => Some (stdYear, 2%nat)
  | String "1" (String "5" _) => Some (stdHour, 2%nat)
  | String "1" _ => Some (stdNumMonth, 1%nat)
  | String "2" _ =>
      if strings.HasPrefix layout "2006" then Some (stdLongYear, 4%nat)
      else Some (stdDay, 1%nat)
  | String "3" _ => Some (stdHour12, 1%nat)
  | String "4" _ => Some (stdMinute, 1%nat)
  | String "5" _ => Some (stdSecond, 1%nat)
  | String "P" (String "M" _) => Some (stdPM, 2%nat)
  | String "p" (String "m" _) => Some (stdpm, 2%nat)
  | _ => None
  end.

(** The layout cut into literal characters and elements: the repeated
    calls of [nextStdChunk] in [AppendFormat].  [skip] counts the
    characters of the element just recognised that are still to pass. *)
Fixpoint chunks (skip : nat) (layout : string) : list chunk :=
  match layout with
  | EmptyString => []
  | String c rest =>
      match skip with
      | S k => chunks k rest
      | O =>
          match stdAt layout with
          | Some (s, n) => Std s :: chunks (Nat.pred n) rest
          | None => Lit c :: chunks O rest
          end
      end
  end.

Fixpoint zeros (n : nat) : string :=
  match n with
  | O => ""
  | S k => String "0" (zeros k)
  end.

(** [appendInt(b, x, width)]: [x] in decimal, padded with zeros on the
    left to [width] digits. *)
Definition appendInt (x : Z) (width : nat) : string :=
  let digits := strconv.Itoa (Z.abs x) in
  (if x <? 0 then "-" else "")
    ++ zeros (width - String.length digits) ++ digits.

Definition hour12 (h : Z) : Z :=
  let hr := Z.rem h 12 in if hr =? 0 then 12 else hr.

(** The element [MST]: the abbreviation of the zone if it is known, and
    otherwise its offset, as [-0700]. *)
Definition zoneString (t : Time) : string :=
  if String.eqb (zoneName t) "" then
    let zone := Z.quot (zoneOffset t) 60 in
    (if zone <? 0 then "-" else "+")
      ++ appendInt (Z.quot (Z.abs zone) 60) 2
      ++ appendInt (Z.rem (Z.abs zone) 60) 2
  else zoneName t.

(** What [AppendFormat] appends for one element. *)
Definition formatStd (t : Time) (s : std) : string :=
  match s with
  | stdYear =>
      let y := Year t in
      let y := if y <? 0 then - y else y in
      appendInt (Z.rem y 100) 2
  | stdLongYear => appendInt (Year t) 4
  | stdMonth => short (MonthString (Month t))
  | stdLongMonth => MonthString (Month t)
  | stdNumMonth => appendInt (Month t) 0
  | stdZeroMonth => appendInt (Month t) 2
  | stdWeekDay => short (WeekdayString (Weekday t))
  | stdLongWeekDay => WeekdayString (Weekday t)
  | stdDay => appendInt (Day t) 0
  | stdZeroDay => appendInt (Day t) 2
  | stdHour => appendInt (Hour t) 2
  | stdHour12 => appendInt (hour12 (Hour t)) 0
  | stdZeroHour12 => appendInt (hour12 (Hour t)) 2
  | stdMinute => appendInt (Minute t) 0
  | stdZeroMinute => appendInt (Minute t) 2
  | stdSecond => appendInt (Second t) 0
  | stdZeroSecond => appendInt (Second t) 2
  | stdPM => if 12 <=? Hour t then "PM" else "AM"
  | stdpm => if 12 <=? Hour t then "pm" else "am"
  | stdTZ => zoneString t
  end.

Definition formatChunk (t : Time) (c : chunk) : string :=
  match c with
  | Lit a => String a ""
  | Std s => formatStd t s
  end.

(** [t.Format(layout)]. *)
Definition Format (t : Time) (layout : string) : string :=
  fold_right (fun c acc => formatChunk t c ++ acc) "" (chunks O layout).

End time.

(** ** Package bytes *)

Definition LF : byte := x0a.   (* '\n' *)
Definition CR : byte := x0d.   (* '\r' *)

Module bytes.

(** [bytes.IndexByte(b, c)]: the index of the first instance of [c] in
    [b], or -1. *)
Fixpoint IndexByte (b : list byte) (c : byte) : Z :=
  match b with
  | [] => -1
  | x :: b' =>
      if Byte.eqb x c then 0
      else let i := IndexByte b' c in
           if i <? 0 then -1 else 1 + i
  end.

(** A [bytes.Reader], reduced to the part of its slice not read yet. *)
Record Reader : Type := NewReader { unread : list byte }.

(** [r.Read(p)] with [len(p) = n]: the reader after the call, the bytes
    copied into [p], and the error. *)
Definition Read (r : Reader) (n : Z)
  : Reader * list byte * option error :=
  match unread r with
  | [] => (r, [], Some EOF)
  | s =>
      let k := Z.to_nat (Z.min n (Z.of_nat (length s))) in
      (NewReader (drop k s), take k s, None)
  end.

End bytes.

(** ** Package bufio: Scanner with the split function ScanLines *)

Module bufio.

Definition MaxScanTokenSize : Z := 64 * 1024.
Definition startBufSize : Z := 4096.

(** [dropCR] drops a terminal carriage return from the data. *)
Definition dropCR (data : list byte) : list byte :=
  match last data with
  | Some c => if Byte.eqb c CR then removelast data else data
  | None => data
  end.

(** [ScanLines(data, atEOF)]: the advance and the token ([None] is the
    nil token, a request for more data); its error is always nil. *)
Definition ScanLines (data : list byte) (atEOF : bool)
  : Z * option (list byte) :=
  if atEOF && (Z.of_nat (length data) =? 0) then (0, None)
  else
    let i := bytes.IndexByte data LF in
    if 0 <=? i then
      (* a full newline-terminated line *)
      (i + 1, Some (dropCR (take (Z.to_nat i) data)))
    else if atEOF then
      (* a final, non-terminated line *)
      (Z.of_nat (length data), Some (dropCR data))
    else (0, None).

(** The scanner: [buf] holds the filled part [s.buf[0:s.end]] of the
    buffer and [cap] is [len(s.buf)]; [rd] is the reader.  The token
    limit is the default one, [MaxScanTokenSize], since [firstLine]
    never calls [Buffer]. *)
Record Scanner : Type := mkScanner {
  rd : bytes.Reader;
  tok : option (list byte);
  buf : list byte;
  cap : Z;
  start : Z;
  err : option error
}.

Definition NewScanner (r : bytes.Reader) : Scanner :=
  mkScanner r None [] 0 0 None.

Definition end_ (s : Scanner) : Z := Z.of_nat (length (buf s)).

(** [s.setErr(e)] records the first error that is not [io.EOF]. *)
Definition setErr (s : Scanner) (e : error) : Scanner :=
  match err s with
  | None | Some EOF =>
      mkScanner (rd s) (tok s) (buf s) (cap s) (start s) (Some e)
  | Some _ => s
  end.

(** The outcome of offering the data held to the split function: the
    scan goes on ([inl]) or [Scan] returns ([inr]).  [ScanLines] returns
    no error, and a token of [ScanLines] always comes with a positive
    advance, so neither [ErrFinalToken] nor the count of empty tokens
    plays a part. *)
Definition trySplit (s : Scanner) : Scanner + bool * Scanner :=
  if (start s <? end_ s) || notNil (err s) then
    let '(advance, token) :=
      ScanLines (drop (Z.to_nat (start s)) (buf s)) (notNil (err s)) in
    if advance <? 0 then inr (false, setErr s ErrNegativeAdvance)
    else if end_ s - start s <? advance
         then inr (false, setErr s ErrAdvanceTooFar)
    else
      let s' :=
        mkScanner (rd s) token (buf s) (cap s) (start s + advance) (err s)
      in
      match token with
      | Some _ => inr (true, s')
      | None => inl s'
      end
  else inl s.

(** Shift the data to the beginning of the buffer if there is lots of
    empty space or space is needed. *)
Definition shift (s : Scanner) : Scanner :=
  if (0 <? start s)
     && ((end_ s =? cap s) || (Z.quot (cap s) 2 <? start s))
  then mkScanner (rd s) (tok s) (drop (Z.to_nat (start s)) (buf s))
                 (cap s) 0 (err s)
  else s.

(** Resize a full buffer; [None] when it has reached the token limit.
    (The guard [len(s.buf) > maxInt/2] of the doubling is void below that
    limit.) *)
Definition grow (s : Scanner) : option Scanner :=
  if end_ s =? cap s then
    if MaxScanTokenSize <=? cap s then None
    else
      let newSize := cap s * 2 in
      let newSize := if newSize =? 0 then startBufSize else newSize in
      let newSize := Z.min newSize MaxScanTokenSize in
      Some (mkScanner (rd s) (tok s) (drop (Z.to_nat (start s)) (buf s))
                      newSize 0 (err s))
  else Some s.

(** Read some input into the free part of the buffer.  A [bytes.Reader]
    asked for at least one byte answers with bytes or with [io.EOF], so
    the loop that guards against a broken reader runs once. *)
Definition fill (s : Scanner) : Scanner :=
  let '(r', p, e) := bytes.Read (rd s) (cap s - end_ s) in
  let s' := mkScanner r' (tok s) (buf s ++ p) (cap s) (start s) (err s) in
  match e with
  | Some e => setErr s' e
  | None => s'
  end.

(** [s.Scan()]: the loop "until we have a token", one unfolding for each
    unit of [fuel]; [None] when the fuel runs out. *)
Fixpoint Scan (fuel : nat) (s : Scanner) : option (bool * Scanner) :=
  match fuel with
  | O => None
  | S fuel =>
      match trySplit s with
      | inr res => Some res
      | inl s =>
          match err s with
          | Some _ =>
              (* EOF or an error was hit already: shut it down *)
              Some (false, mkScanner (rd s) (tok s) [] (cap s) 0 (err s))
          | None =>
              match grow (shift s) with
              | None => Some (false, setErr (shift s) ErrTooLong)
              | Some s => Scan fuel (fill s)
              end
          end
      end
  end.

(** [s.Text()]. *)
Definition Text (s : Scanner) : string :=
  string_of_list_byte (default [] (tok s)).

(** Unfoldings of the loop that always suffice for a fresh scanner over
    a [bytes.Reader] (lemma [Scan_fresh] below). *)
Definition scanFuel : nat := 8.

End bufio.

(** [firstLine]: one [Scan] of a fresh line scanner over [b], whose
    result is ignored, then [Text].  The scan always ends within
    [scanFuel] turns of its loop (lemma [Scan_fresh]). *)
Definition firstLine (b : list byte) : string :=
  match bufio.Scan bufio.scanFuel (bufio.NewScanner (bytes.NewReader b)) with
  | Some (_, s) => bufio.Text s
  | None => ""
  end.

(** [[]byte(s)]. *)
Definition B (s : string) : list byte := list_byte_of_string s.

(** ** The states of the scan of [firstLine] *)

Section ScanStates.

Import bufio.

(** The token of the first [Scan]: the bytes before the first line feed,
    or all of them when there is none, less one terminal carriage
    return; nothing when neither a line feed nor the end of the input
    lies within the first [MaxScanTokenSize] bytes. *)
Definition line_of (b : list byte) : list byte :=
  let i := bytes.IndexByte b LF in
  if (0 <=? i) && (i <? MaxScanTokenSize) then dropCR (take (Z.to_nat i) b)
  else if Z.of_nat (length b) <? MaxScanTokenSize then dropCR b
  else [].

(** The scanner of [firstLine] when its buffer has [c] bytes of room:
    it holds the first [c] bytes of [b], the reader the others. *)
Definition scanning (c : Z) (b : list byte) : Scanner :=
  mkScanner (bytes.NewReader (drop (Z.to_nat c) b)) None
            (take (Z.to_nat c) b) c 0 None.

(** The scanner once the reader has answered [io.EOF]: it holds [b]. *)
Definition drained (c : Z) (b : list byte) : Scanner :=
  mkScanner (bytes.NewReader []) None b c 0 (Some EOF).

(** The size a full buffer of size [c] is given. *)
Definition next (c : Z) : Z :=
  Z.min (if c * 2 =? 0 then startBufSize else c * 2) MaxScanTokenSize.

(** [rank c n]: a buffer of size [c] is [n] resizings away from the
    token limit. *)
Inductive rank : Z -> nat -> Prop :=
  | rank_max : rank MaxScanTokenSize 0
  | rank_step (c : Z) (n : nat) :
      0 <= c < MaxScanTokenSize -> rank (next c) n -> rank c (S n).

End ScanStates.

(** ** The page metadata handed to the template *)

Record docMetadata : Type := mkDocMetadata {
  Title : string;
  DocBody : string;
  Timestamp : string;
  Version : Z
}.

(** ** Package text/template: the execution of a parsed tree

    The trees made of text and of field actions [{{.Name}}], executed on a
    [docMetadata].  [text/template] copies text and prints field values
    with [fmt.Fprint], without escaping: a string as it is, an int in
    decimal.  A field the struct does not have stops the execution with
    the error "can't evaluate field"; what was written before stays in the
    buffer.  Pipelines, variables and control actions are not modelled. *)

Module template.

Inductive Node : Type :=
  | TextNode (text : string)
  | FieldNode (name : string) (chain : list string).

Definition Tree : Type := list Node.

(** The printed value of the field [name] of [data]. *)
Definition field (data : docMetadata) (name : string) : option string :=
  if String.eqb name "Title" then Some (Title data)
  else if String.eqb name "DocBody" then Some (DocBody data)
  else if String.eqb name "Timestamp" then Some (Timestamp data)
  else if String.eqb name "Version" then Some (strconv.Itoa (Version data))
  else None.

(** [{{.name.chain}}]: the fields of [docMetadata] are strings and an
    int, which have no fields of their own. *)
Definition evalField (data : docMetadata) (name : string)
    (chain : list string) : result string :=
  match field data name with
  | None => Err (ExecError name)
  | Some v =>
      match chain with
      | [] => Ok v
      | f :: _ => Err (ExecError f)
      end
  end.

(** [tmpl.Execute(&b, data)]: the bytes written to [b], and the error. *)
Fixpoint Execute (tree : Tree) (data : docMetadata)
  : string * option error :=
  match tree with
  | [] => ("", None)
  | TextNode text :: rest =>
      let '(out, e) := Execute rest data in (text ++ out, e)
  | FieldNode name chain :: rest =>
      match evalField data name chain with
      | Ok v => let '(out, e) := Execute rest data in (v ++ out, e)
      | Err e => ("", Some e)
      end
  end.

(** The placeholder of the field [name]. *)
Definition placeholder (name : string) : Node := FieldNode name [].

End template.

(** ** The document store and the Lambda events *)

Module docstore.

(** Of the metadata of a revision, the handler reads [Timestamp] and
    [Id]. *)
Record RevisionMetadata : Type := mkMetadata {
  Timestamp : time.Time;
  Id : Z
}.

(** A revision as the handler sees it: what [ioutil.ReadAll] gets out
    of it (the bytes read and the error), and its metadata. *)
Record Revision : Type := mkRevision {
  body : list byte;
  readErr : option error;
  Metadata : RevisionMetadata
}.

(** The store: the answer of [GetDoc] for each identifier. *)
Definition DocStore : Type := string -> result Revision.

End docstore.

Module events.

(** Of the request, the handler reads the path parameters only. *)
Record APIGatewayProxyRequest : Type := mkRequest {
  PathParameters : gmap string string
}.

Record APIGatewayProxyResponse : Type := mkResponse {
  StatusCode : Z;
  Headers : gmap string string;
  Body : string;
  IsBase64Encoded : bool
}.

End events.

Definition Response : Type := events.APIGatewayProxyResponse.

(** [Response{StatusCode: code}]: the other fields have their zero
    values. *)
Definition statusOnly (code : Z) : Response :=
  events.mkResponse code ∅ "" false.

(** ** Effects: the calls the handler makes, in order *)

Inductive event : Type :=
  | EvGetDoc (id : string)
  | EvReadAll (rev : docstore.Revision)
  | EvLog (prefix : string) (e : error)
  | EvToHTML (src : list byte)
  | EvParse (name : string) (src : string)
  | EvExecute (data : docMetadata).

Definition Eff (A : Type) : Type := A * list event.

Definition ret {A : Type} (a : A) : Eff A := (a, []).

Definition bind {A C : Type} (m : Eff A) (k : A -> Eff C) : Eff C :=
  let '(a, t) := m in
  let '(c, t') := k a in
  (c, (t ++ t')%list).

Definition call {A : Type} (e : event) (a : A) : Eff A := (a, [e]).

Notation "x <- m ;; k" := (bind m (fun x => k))
  (at level 100, m at next level, right associativity).

Definition tmplDocName : string := "doc-template.html".

(** [request.PathParameters["docId"]]: the empty string when the key is
    absent. *)
Definition docIdOf (request : events.APIGatewayProxyRequest) : string :=
  default "" (events.PathParameters request !! "docId").

(** ** The handler *)

Section Handler.

(** The store [ds], and the collaborators: [markdown.ToHTML] and the
    template engine ([template.New("docPage").Parse] and
    [Template.Execute]). *)
Variable ds : docstore.DocStore.
Variable markdown_ToHTML : list byte -> list byte.
Variable Template : Type.
Variable template_Parse : string -> string -> result Template.
Variable template_Execute :
  Template -> docMetadata -> string * option error.

Definition GetDoc (id : string) : Eff (result docstore.Revision) :=
  call (EvGetDoc id) (ds id).

Definition ReadAll (rev : docstore.Revision)
  : Eff (list byte * option error) :=
  call (EvReadAll rev) (docstore.body rev, docstore.readErr rev).

Definition log_Printf (prefix : string) (e : error) : Eff unit :=
  call (EvLog prefix e) tt.

Definition getTemplate : Eff (result Template) :=
  r <- GetDoc tmplDocName ;;
  match r with
  | Err err => ret (Err err)
  | Ok tmplDoc =>
      read <- ReadAll tmplDoc ;;
      let '(tmplBytes, err) := read in
      match err with
      | Some err => ret (Err err)
      | None =>
          let src := string_of_list_byte tmplBytes in
          call (EvParse "docPage" src) (template_Parse "docPage" src)
      end
  end.

(** The response of a document that is not rendered. *)
Definition respondHTML (body : string) : Response :=
  events.mkResponse 200 {[ "Content-Type" := "text/html" ]} body false.

(** The metadata of the page of [doc], rendered as [parsed]. *)
Definition pageMetadata (rev : docstore.Revision) (doc parsed : list byte)
  : docMetadata :=
  {| Title := firstLine doc;
     DocBody := string_of_list_byte parsed;
     Timestamp :=
       time.Format (docstore.Timestamp (docstore.Metadata rev))
                   time.RFC850;
     Version := docstore.Id (docstore.Metadata rev) |}.

(** The handler from "Convert the doc's markdown to HTML" on. *)
Definition renderPage (rev : docstore.Revision) (doc : list byte)
  : Eff (Response * option error) :=
  parsed <- call (EvToHTML doc) (markdown_ToHTML doc) ;;
  t <- getTemplate ;;
  match t with
  | Err err => ret (statusOnly 500, Some err)
  | Ok tmpl =>
      let meta := pageMetadata rev doc parsed in
      run <- call (EvExecute meta) (template_Execute tmpl meta) ;;
      let '(b, err) := run in
      match err with
      | Some err => ret (statusOnly 500, Some err)
      | None => ret (respondHTML b, None)
      end
  end.

Definition Handler (request : events.APIGatewayProxyRequest)
  : Eff (Response * option error) :=
  let docId := docIdOf request in
  r <- GetDoc docId ;;
  match r with
  | Err err =>
      _ <- log_Printf "GetDoc error: " err ;;
      ret (statusOnly 404, None)
  | Ok rev =>
      read <- ReadAll rev ;;
      let '(doc, err) := read in
      match err with
      | Some err =>
          _ <- log_Printf "ReadAll error: " err ;;
          ret (statusOnly 500, Some err)
      | None =>
          (* If the docId includes a "." then don't render it. *)
          if strings.Contains docId "." then
            ret (respondHTML (string_of_list_byte doc), None)
          else renderPage rev doc
      end
  end.

End Handler.

(** ** Vocabulary of the properties *)

(** [sub] occurs in [s]. *)
Definition Substring (sub s : string) : Prop :=
  exists p q, s = p ++ sub ++ q.

(** The title as the spec words it: the first line of the content, up to
    and not including the first line break.  A line feed is a line break,
    and so is a carriage return followed by a line feed; [loneCR] tells
    whether a carriage return alone is one too. *)
Fixpoint title_spec (loneCR : bool) (content : list byte) : list byte :=
  match content with
  | [] => []
  | c :: rest =>
      if Byte.eqb c LF then []
      else if Byte.eqb c CR
              && (loneCR
                  || match rest with
                     | x :: _ => Byte.eqb x LF
                     | [] => false
                     end)
           then []
      else c :: title_spec loneCR rest
  end.

(** The tree has the placeholders of the title, the body, the timestamp
    and the version. *)
Definition has_placeholders (tree : template.Tree) : Prop :=
  In (template.placeholder "Title") tree
  /\ In (template.placeholder "DocBody") tree
  /\ In (template.placeholder "Timestamp") tree
  /\ In (template.placeholder "Version") tree.

(** [name] is a field of [docMetadata]. *)
Definition isField (name : string) : bool :=
  String.eqb name "Title" || String.eqb name "DocBody"
  || String.eqb name "Timestamp" || String.eqb name "Version".

(** The node is text, or the placeholder of a field of [docMetadata]. *)
Definition plain (n : template.Node) : Prop :=
  match n with
  | template.TextNode _ => True
  | template.FieldNode name chain => isField name = true /\ chain = []
  end.

(** ** A store for the examples

    The scenarios of the spec: a raw document, a markdown document with
    its revision, the template document; and a document whose content
    cannot be read, an identifier for which the store is unreachable.
    [ToHTML] stands in for the markdown library and [Parse] knows the
    tree of the one template source of the store. *)

Module Fixture.

Definition revision (content : list byte) : docstore.Revision :=
  docstore.mkRevision content None
    (docstore.mkMetadata (time.UTC 1620122400) 3).

Definition tmplSrc : string :=
  "<title>{{.Title}}</title>{{.DocBody}}v{{.Version}} {{.Timestamp}}".

Definition tmplTree : template.Tree :=
  [template.TextNode "<title>"; template.placeholder "Title";
   template.TextNode "</title>"; template.placeholder "DocBody";
   template.TextNode "v"; template.placeholder "Version";
   template.TextNode " "; template.placeholder "Timestamp"].

Definition intro : list byte := B "# Welcome" ++ [LF] ++ B "Body text".

Definition unreadable : docstore.Revision :=
  docstore.mkRevision [] (Some ReadError)
    (docstore.mkMetadata (time.UTC 0) 1).

Definition store : docstore.DocStore := fun id =>
  if String.eqb id "notes.txt" then Ok (revision (B "<b>hi</b>"))
  else if String.eqb id "intro" then Ok (revision intro)
  else if String.eqb id tmplDocName then Ok (revision (B tmplSrc))
  else if String.eqb id "broken" then Ok unreadable
  else if String.eqb id "offline" then Err StorageUnavailable
  else Err NotFound.

(** The same documents, without the template document. *)
Definition store_no_template : docstore.DocStore := fun id =>
  if String.eqb id tmplDocName then Err NotFound else store id.

Definition ToHTML (src : list byte) : list byte :=
  B "<p>" ++ src ++ B "</p>".

Definition Parse (name src : string) : result template.Tree :=
  if String.eqb src tmplSrc then Ok tmplTree
  else Err (TemplateInvalid src).

Definition request (docId : string) : events.APIGatewayProxyRequest :=
  events.mkRequest {[ "docId" := docId ]}.

Definition handle (request : events.APIGatewayProxyRequest)
  : Eff (Response * option error) :=
  Handler store ToHTML template.Tree Parse template.Execute request.

(** A template that also asks for a field [docMetadata] lacks. *)
Definition authorTree : template.Tree :=
  template.placeholder "Author" :: tmplTree.

Definition welcome : docMetadata :=
  mkDocMetadata "Welcome" "<p>Body</p>" "Tuesday, 04-May-21 10:00:00 UTC" 3.

End Fixture.

(** ** Readings of a trace *)

(** The identifiers asked of the store, in order. *)
Definition fetched (trace : list event) : list string :=
  omap (fun ev => match ev with EvGetDoc id => Some id | _ => None end)
       trace.

(** The sources handed to the markdown conversion. *)
Definition converted (trace : list event) : list (list byte) :=
  omap (fun ev => match ev with EvToHTML src => Some src | _ => None end)
       trace.

(** The lines logged: the prefix of the message and the error. *)
Definition logged (trace : list event) : list (string * error) :=
  omap (fun ev => match ev with EvLog p e => Some (p, e) | _ => None end)
       trace.

(** The template sources parsed. *)
Definition parsed (trace : list event) : list string :=
  omap (fun ev => match ev with EvParse _ src => Some src | _ => None end)
       trace.

(** More documents and trees for the examples: a line as long as the
    buffer of the scanner can get, and a template that writes text before
    it asks for a field [docMetadata] lacks. *)

Module Samples.

Definition longLine : list byte := repeat "a"%byte (Z.to_nat 65536).

Definition halfTree : template.Tree :=
  [template.TextNode "<html>"; template.placeholder "Author"].

End Samples.

(** * Properties *)

(** Case analysis on every integer comparison of the goal. *)
Ltac Zbool :=
  repeat match goal with
    | |- context [?a <? ?b] => destruct (Z.ltb_spec a b)
    | |- context [?a <=? ?b] => destruct (Z.leb_spec a b)
    | |- context [?a =? ?b] => destruct (Z.eqb_spec a b)
    end;
  cbn [andb orb negb]; try reflexivity; try lia.

(** ** strings.Contains with a dot *)

Lemma Index_cons (c : ascii) (s substr : string) :
  strings.Index (String c s) substr =
  if strings.HasPrefix (String c s) substr then 0
  else if strings.Index s substr <? 0 then -1 else 1 + strings.Index s substr.
Proof. reflexivity. Qed.

Lemma Index_lower (s substr : string) : -1 <= strings.Index s substr.
Proof.
  induction s as [|c s IH].
  - destruct substr; simpl; lia.
  - rewrite Index_cons.
    destruct (strings.HasPrefix (String c s) substr); [lia|].
    destruct (strings.Index s substr <? 0); lia.
Qed.

Lemma Contains_dot_cons (c : ascii) (s : string) :
  strings.Contains (String c s) "." =
  Ascii.eqb c "." || strings.Contains s ".".
Proof.
  unfold strings.Contains. rewrite Index_cons.
  cbn [strings.HasPrefix]. rewrite andb_true_r.
  destruct (Ascii.eqb c "."); [reflexivity|]. cbn [orb].
  pose proof (Index_lower s ".") as Hlo.
  destruct (Z.ltb_spec (strings.Index s ".") 0) as [E'|E'].
  - symmetry. transitivity false; [apply Z.leb_gt; lia | reflexivity].
  - transitivity true; [apply Z.leb_le; lia | symmetry; apply Z.leb_le; lia].
Qed.

Lemma Contains_dot_spec (s : string) :
  strings.Contains s "." = true <-> has_dot s.
Proof.
  unfold has_dot. induction s as [|c s IH].
  - simpl. split; [discriminate | tauto].
  - rewrite Contains_dot_cons. simpl. rewrite orb_true_iff, IH, Ascii.eqb_eq.
    split; intros [H|H]; auto.
Qed.

(** ** Formatting with RFC850 *)


Example Format_2021_05_04 :
  time.Format (time.UTC 1620122400) time.RFC850
  = "Tuesday, 04-May-21 10:00:00 UTC".
Proof. vm_compute. reflexivity. Qed.

Example Format_epoch :
  time.Format (time.UTC 0) time.RFC850 = "Thursday, 01-Jan-70 00:00:00 UTC".
Proof. vm_compute. reflexivity. Qed.

Example Format_leap_day_est :
  time.Format (time.mkTime 951850799 "EST" (-18000)) time.RFC850
  = "Tuesday, 29-Feb-00 13:59:59 EST".
Proof. vm_compute. reflexivity. Qed.

(** ** The first line *)

Example firstLine_multi :
  firstLine (B "Hello" ++ [LF] ++ B "World") = "Hello".
Proof. vm_compute. reflexivity. Qed.

Example firstLine_single : firstLine (B "Hello World") = "Hello World".
Proof. vm_compute. reflexivity. Qed.

Example firstLine_empty : firstLine [] = "".
Proof. vm_compute. reflexivity. Qed.

Example firstLine_crlf :
  firstLine (B "Hello" ++ [CR; LF] ++ B "World") = "Hello".
Proof. vm_compute. reflexivity. Qed.

Example firstLine_cr_eof : firstLine (B "Hello" ++ [CR]) = "Hello".
Proof. vm_compute. reflexivity. Qed.

Example firstLine_65535 :
  String.eqb (firstLine (repeat "a"%byte (Z.to_nat 65535)))
             (string_of_list_byte (repeat "a"%byte (Z.to_nat 65535))) = true.
Proof. vm_compute. reflexivity. Qed.

Example firstLine_65536 :
  firstLine (repeat "a"%byte (Z.to_nat 65536)) = "".
Proof. vm_compute. reflexivity. Qed.

Example firstLine_65535_lf :
  String.eqb (firstLine (repeat "a"%byte (Z.to_nat 65535) ++ [LF] ++ B "x"))
             (string_of_list_byte (repeat "a"%byte (Z.to_nat 65535))) = true.
Proof. vm_compute. reflexivity. Qed.

Example firstLine_65536_lf :
  firstLine (repeat "a"%byte (Z.to_nat 65536) ++ [LF] ++ B "x") = "".
Proof. vm_compute. reflexivity. Qed.

Section FirstLine.

Import bufio.

Lemma IndexByte_bounds (b : list byte) (x : byte) :
  -1 <= bytes.IndexByte b x < Z.of_nat (length b).
Proof.
  induction b as [|y b IH]; cbn [bytes.IndexByte length]; [lia|].
  destruct (Byte.eqb y x); [lia|]. Zbool.
Qed.

Lemma IndexByte_take (n : nat) (b : list byte) (x : byte) :
  bytes.IndexByte (take n b) x =
  if (0 <=? bytes.IndexByte b x) && (bytes.IndexByte b x <? Z.of_nat n)
  then bytes.IndexByte b x else -1.
Proof.
  revert n. induction b as [|y b IH]; intros n.
  - rewrite take_nil. reflexivity.
  - pose proof (IndexByte_bounds b x) as Hb.
    destruct n as [|n]; cbn [take firstn bytes.IndexByte].
    + destruct (Byte.eqb y x); Zbool.
    + rewrite IH. destruct (Byte.eqb y x); [Zbool|].
      destruct (Z.leb_spec 0 (bytes.IndexByte b x));
        destruct (Z.ltb_spec (bytes.IndexByte b x) (Z.of_nat n));
        cbn [andb]; Zbool.
Qed.

Lemma Scan_drained (c : Z) (b : list byte) (fuel : nat) :
  exists ok s',
    Scan (S fuel) (drained c b) = Some (ok, s')
    /\ default [] (tok s') =
       if 0 <=? bytes.IndexByte b LF
       then dropCR (take (Z.to_nat (bytes.IndexByte b LF)) b)
       else dropCR b.
Proof.
  pose proof (IndexByte_bounds b LF) as Hb.
  cbn [Scan]. unfold trySplit, ScanLines, end_.
  cbn [start buf err notNil drained Z.to_nat drop].
  rewrite orb_true_r. cbn [andb].
  change (Z.to_nat 0) with 0%nat. rewrite drop_0.
  destruct (Z.eqb_spec (Z.of_nat (length b)) 0) as [Hl|Hl].
  - cbv beta iota zeta. cbn [Z.ltb Z.compare].
    destruct (Z.ltb_spec (Z.of_nat (length b) - 0) 0); [lia|].
    cbn [err]. do 2 eexists. split; [reflexivity|]. cbn [tok default].
    destruct b; [reflexivity | cbn [length] in Hl; lia].
  - destruct (Z.leb_spec 0 (bytes.IndexByte b LF)) as [Hi|Hi];
      cbv beta iota zeta.
    + destruct (Z.ltb_spec (bytes.IndexByte b LF + 1) 0); [lia|].
      destruct (Z.ltb_spec (Z.of_nat (length b) - 0)
                  (bytes.IndexByte b LF + 1)); [lia|].
      do 2 eexists. split; reflexivity.
    + destruct (Z.ltb_spec (Z.of_nat (length b)) 0); [lia|].
      destruct (Z.ltb_spec (Z.of_nat (length b) - 0)
                  (Z.of_nat (length b))); [lia|].
      do 2 eexists. split; reflexivity.
Qed.

Lemma trySplit_scanning (c : Z) (b : list byte) :
  0 <= c ->
  trySplit (scanning c b) =
  if (0 <=? bytes.IndexByte b LF) && (bytes.IndexByte b LF <? c)
  then inr (true,
            mkScanner (bytes.NewReader (drop (Z.to_nat c) b))
              (Some (dropCR (take (Z.to_nat (bytes.IndexByte b LF)) b)))
              (take (Z.to_nat c) b) c (0 + (bytes.IndexByte b LF + 1)) None)
  else inl (scanning c b).
Proof.
  intros Hc. pose proof (IndexByte_bounds b LF) as Hb.
  unfold trySplit, ScanLines, end_.
  cbn [start buf err notNil scanning rd tok cap andb orb].
  change (Z.to_nat 0) with 0%nat. rewrite drop_0, orb_false_r.
  rewrite IndexByte_take, length_take, (Z2Nat.id c) by lia.
  assert (not_found :
    (let '(advance, token) :=
       if 0 <=? -1
       then (-1 + 1,
             Some (dropCR (take (Z.to_nat (-1)) (take (Z.to_nat c) b))))
       else (0, None) in
     if advance <? 0
     then inr (false, setErr (scanning c b) ErrNegativeAdvance)
     else if Z.of_nat (Z.to_nat c `min` length b) - 0 <? advance
          then inr (false, setErr (scanning c b) ErrAdvanceTooFar)
          else
            match token with
            | Some _ =>
                inr (true,
                     mkScanner (bytes.NewReader (drop (Z.to_nat c) b))
                       token (take (Z.to_nat c) b) c (0 + advance) None)
            | None =>
                inl (mkScanner (bytes.NewReader (drop (Z.to_nat c) b))
                       token (take (Z.to_nat c) b) c (0 + advance) None)
            end) = inl (scanning c b) :> Scanner + bool * Scanner).
  { change (0 <=? -1) with false. cbv beta iota zeta.
    change (0 <? 0) with false. cbv beta iota zeta.
    destruct (Z.ltb_spec
                (Z.of_nat (Z.to_nat c `min` length b) - 0) 0); [lia|].
    reflexivity. }
  destruct (Z.ltb_spec 0 (Z.of_nat (Z.to_nat c `min` length b)))
    as [Hpos|Hzero].
  - destruct (Z.leb_spec 0 (bytes.IndexByte b LF)) as [Hi|Hi];
      destruct (Z.ltb_spec (bytes.IndexByte b LF) c) as [Hic|Hic];
      cbn [andb]; cbv beta iota zeta.
    + destruct (Z.leb_spec 0 (bytes.IndexByte b LF)); [|lia].
      cbv beta iota zeta.
      destruct (Z.ltb_spec (bytes.IndexByte b LF + 1) 0); [lia|].
      destruct (Z.ltb_spec
                  (Z.of_nat (Z.to_nat c `min` length b) - 0)
                  (bytes.IndexByte b LF + 1)); [lia|].
      rewrite take_take, Nat.min_l by lia. reflexivity.
    + apply not_found.
    + apply not_found.
    + apply not_found.
  - destruct (Z.leb_spec 0 (bytes.IndexByte b LF)) as [Hi|Hi];
      destruct (Z.ltb_spec (bytes.IndexByte b LF) c) as [Hic|Hic];
      cbn [andb]; try reflexivity.
    lia.
Qed.

Lemma take_drop_same (l : list byte) (n m : nat) :
  n = m \/ (length l <= n /\ length l <= m)%nat ->
  take n l = take m l /\ drop n l = drop m l.
Proof.
  intros [->|[Hn Hm]]; [split; reflexivity|].
  rewrite !take_ge, !drop_ge by lia. split; reflexivity.
Qed.

(** One turn of the loop of [Scan]. *)
Lemma Scan_scanning_step (c : Z) (b : list byte) (fuel : nat) :
  0 <= c <= MaxScanTokenSize ->
  Scan (S fuel) (scanning c b) =
  if (0 <=? bytes.IndexByte b LF) && (bytes.IndexByte b LF <? c)
  then Some (true,
             mkScanner (bytes.NewReader (drop (Z.to_nat c) b))
               (Some (dropCR (take (Z.to_nat (bytes.IndexByte b LF)) b)))
               (take (Z.to_nat c) b) c (0 + (bytes.IndexByte b LF + 1))
               None)
  else if Z.of_nat (length b) <? c then Scan fuel (drained c b)
  else if MaxScanTokenSize <=? c
       then Some (false, setErr (scanning c b) ErrTooLong)
  else if Z.of_nat (length b) =? c then Scan fuel (drained (next c) b)
  else Scan fuel (scanning (next c) b).
Proof.
  intros Hc. cbn [Scan]. rewrite trySplit_scanning by lia.
  destruct ((0 <=? bytes.IndexByte b LF) && (bytes.IndexByte b LF <? c));
    [reflexivity|].
  cbn [err scanning].
  change (shift (scanning c b)) with (scanning c b).
  unfold grow, end_. cbn [buf cap scanning rd tok start err].
  rewrite length_take.
  destruct (Z.ltb_spec (Z.of_nat (length b)) c) as [Hlt|Hge].
  - destruct (Z.eqb_spec (Z.of_nat (Z.to_nat c `min` length b)) c);
      [lia|].
    unfold fill, bytes.Read, end_.
    cbn [buf cap scanning rd tok start err bytes.unread].
    rewrite drop_ge, take_ge by lia. cbv beta iota zeta.
    rewrite app_nil_r. reflexivity.
  - destruct (Z.eqb_spec (Z.of_nat (Z.to_nat c `min` length b)) c);
      [|lia].
    destruct (Z.leb_spec MaxScanTokenSize c) as [Hmax|Hmax];
      [reflexivity|].
    fold (next c). change (Z.to_nat 0) with 0%nat. rewrite drop_0.
    unfold fill, bytes.Read, end_.
    cbn [buf cap scanning rd tok start err bytes.unread].
    assert (Hlen : length (drop (Z.to_nat c) b)
                   = (length b - Z.to_nat c)%nat) by apply length_drop.
    rewrite length_take.
    destruct (drop (Z.to_nat c) b) as [|x l] eqn:Hd.
    + cbn [length] in Hlen.
      destruct (Z.eqb_spec (Z.of_nat (length b)) c); [|lia].
      cbv beta iota zeta. rewrite app_nil_r, take_ge by lia.
      reflexivity.
    + cbn [length] in Hlen.
      destruct (Z.eqb_spec (Z.of_nat (length b)) c); [lia|].
      cbv beta iota zeta. rewrite <- Hd.
      rewrite take_take_drop, drop_drop.
      assert (Hnext : c < next c <= MaxScanTokenSize).
      { unfold next, startBufSize, MaxScanTokenSize in *.
        destruct (Z.eqb_spec (c * 2) 0); lia. }
      unfold scanning. do 2 f_equal.
      * f_equal. apply take_drop_same.
        rewrite Hd. cbn [length]. lia.
      * apply take_drop_same. rewrite Hd. cbn [length]. lia.
Qed.

Lemma rank_range (c : Z) (n : nat) :
  rank c n -> 0 <= c <= MaxScanTokenSize.
Proof. destruct 1; unfold MaxScanTokenSize in *; lia. Qed.

Lemma rank_fresh : rank 0 5.
Proof.
  do 5 (apply rank_step; [split; vm_compute; congruence|]).
  apply rank_max.
Qed.

Lemma drained_line (c : Z) (b : list byte) (fuel : nat) :
  Z.of_nat (length b) < MaxScanTokenSize ->
  ~ (0 <= bytes.IndexByte b LF < c) ->
  Z.of_nat (length b) <= c ->
  exists ok s',
    Scan (S fuel) (drained c b) = Some (ok, s')
    /\ default [] (tok s') = line_of b.
Proof.
  intros Hlen Hnot Hc. pose proof (IndexByte_bounds b LF) as Hb.
  destruct (Scan_drained c b fuel) as (ok & s' & HS & Htok).
  exists ok, s'. split; [exact HS|]. rewrite Htok. unfold line_of.
  destruct (Z.leb_spec 0 (bytes.IndexByte b LF)); [lia|].
  destruct (Z.ltb_spec (Z.of_nat (length b)) MaxScanTokenSize); [|lia].
  reflexivity.
Qed.

(** A scan started with room for [c] bytes ends, and its token is
    [line_of b]. *)
Lemma Scan_scanning (c : Z) (n : nat) (b : list byte) :
  rank c n ->
  forall fuel, (n + 2 <= fuel)%nat ->
  exists ok s',
    Scan fuel (scanning c b) = Some (ok, s')
    /\ default [] (tok s') = line_of b.
Proof.
  pose proof (IndexByte_bounds b LF) as Hb.
  assert (HM : MaxScanTokenSize = 65536) by reflexivity.
  induction 1 as [|c n Hc Hr IH]; intros fuel Hfuel.
  - destruct fuel as [|[|fuel]]; [lia|lia|].
    rewrite Scan_scanning_step by lia.
    destruct (Z.leb_spec 0 (bytes.IndexByte b LF)) as [Hi|Hi];
      destruct (Z.ltb_spec (bytes.IndexByte b LF) MaxScanTokenSize)
        as [Him|Him]; cbn [andb].
    1: { do 2 eexists. split; [reflexivity|]. cbn [tok default].
         unfold line_of. Zbool. }
    all: destruct (Z.ltb_spec (Z.of_nat (length b)) MaxScanTokenSize)
           as [Hl|Hl];
         [ apply drained_line; lia |].
    all: destruct (Z.leb_spec MaxScanTokenSize MaxScanTokenSize); [|lia].
    all: do 2 eexists; split; [reflexivity|]; cbn [tok default].
    all: unfold line_of; Zbool.
  - apply rank_range in Hr as Hnext.
    destruct fuel as [|[|fuel]]; [lia|lia|].
    rewrite Scan_scanning_step by lia.
    destruct (Z.leb_spec 0 (bytes.IndexByte b LF)) as [Hi|Hi];
      destruct (Z.ltb_spec (bytes.IndexByte b LF) c) as [Hic|Hic];
      cbn [andb].
    1: { do 2 eexists. split; [reflexivity|]. cbn [tok default].
         unfold line_of. Zbool. }
    all: destruct (Z.ltb_spec (Z.of_nat (length b)) c) as [Hl|Hl];
         [ apply drained_line; lia |].
    all: destruct (Z.leb_spec MaxScanTokenSize c); [lia|].
    all: assert (Hn : c < next c)
           by (unfold next, startBufSize; Zbool).
    all: destruct (Z.eqb_spec (Z.of_nat (length b)) c) as [Hlc|Hlc];
         [ apply drained_line; lia | apply IH; lia ].
Qed.

(** The scan of [firstLine] never runs out of fuel. *)
Lemma Scan_fresh (b : list byte) :
  exists ok s',
    Scan scanFuel (NewScanner (bytes.NewReader b)) = Some (ok, s')
    /\ default [] (tok s') = line_of b.
Proof.
  change (NewScanner (bytes.NewReader b)) with (scanning 0 b).
  apply (Scan_scanning 0 5); [apply rank_fresh | unfold scanFuel; lia].
Qed.

Lemma firstLine_line_of (b : list byte) :
  firstLine b = string_of_list_byte (line_of b).
Proof.
  unfold firstLine.
  destruct (Scan_fresh b) as (ok & s' & -> & <-). reflexivity.
Qed.

End FirstLine.

(** ** The handler on the store of the examples *)

Example handle_notes :
  Fixture.handle (Fixture.request "notes.txt")
  = ((respondHTML "<b>hi</b>", None),
     [EvGetDoc "notes.txt"; EvReadAll (Fixture.revision (B "<b>hi</b>"))]).
Proof. vm_compute. reflexivity. Qed.

Example handle_missing :
  Fixture.handle (Fixture.request "no-such-doc")
  = ((statusOnly 404, None),
     [EvGetDoc "no-such-doc"; EvLog "GetDoc error: " NotFound]).
Proof. vm_compute. reflexivity. Qed.

Example handle_offline :
  Fixture.handle (Fixture.request "offline")
  = ((statusOnly 404, None),
     [EvGetDoc "offline"; EvLog "GetDoc error: " StorageUnavailable]).
Proof. vm_compute. reflexivity. Qed.

Example handle_broken :
  Fixture.handle (Fixture.request "broken")
  = ((statusOnly 500, Some ReadError),
     [EvGetDoc "broken"; EvReadAll Fixture.unreadable;
      EvLog "ReadAll error: " ReadError]).
Proof. vm_compute. reflexivity. Qed.

Example handle_intro :
  fst (Fixture.handle (Fixture.request "intro"))
  = (respondHTML
       ("<title># Welcome</title>"
        ++ string_of_list_byte (Fixture.ToHTML Fixture.intro)
        ++ "v3 Tuesday, 04-May-21 10:00:00 UTC"),
     None).
Proof. vm_compute. reflexivity. Qed.

Example handle_no_path_parameter :
  fst (Fixture.handle (events.mkRequest ∅)) = (statusOnly 404, None).
Proof. vm_compute. reflexivity. Qed.

(** ** The runs of the handler, branch by branch *)

Section HandlerRuns.

Variable ds : docstore.DocStore.
Variable markdown_ToHTML : list byte -> list byte.
Variable Template : Type.
Variable template_Parse : string -> string -> result Template.
Variable template_Execute :
  Template -> docMetadata -> string * option error.

Let handler :=
  Handler ds markdown_ToHTML Template template_Parse template_Execute.
Let render :=
  renderPage ds markdown_ToHTML Template template_Parse template_Execute.
Let template := getTemplate ds Template template_Parse.

Lemma run_fetch_failed (request : events.APIGatewayProxyRequest) (e : error) :
  ds (docIdOf request) = Err e ->
  handler request
  = ((statusOnly 404, None),
     [EvGetDoc (docIdOf request); EvLog "GetDoc error: " e]).
Proof.
  intros Hds. unfold handler, Handler, GetDoc, call, bind.
  rewrite Hds. reflexivity.
Qed.

Lemma run_read_failed (request : events.APIGatewayProxyRequest)
    (rev : docstore.Revision) (e : error) :
  ds (docIdOf request) = Ok rev ->
  docstore.readErr rev = Some e ->
  handler request
  = ((statusOnly 500, Some e),
     [EvGetDoc (docIdOf request); EvReadAll rev; EvLog "ReadAll error: " e]).
Proof.
  intros Hds Hrd. unfold handler, Handler, GetDoc, ReadAll, call, bind.
  rewrite Hds, Hrd. reflexivity.
Qed.

Lemma run_raw (request : events.APIGatewayProxyRequest)
    (rev : docstore.Revision) :
  ds (docIdOf request) = Ok rev ->
  docstore.readErr rev = None ->
  strings.Contains (docIdOf request) "." = true ->
  handler request
  = ((respondHTML (string_of_list_byte (docstore.body rev)), None),
     [EvGetDoc (docIdOf request); EvReadAll rev]).
Proof.
  intros Hds Hrd Hdot. unfold handler, Handler, GetDoc, ReadAll, call, bind.
  rewrite Hds, Hrd, Hdot. reflexivity.
Qed.

Lemma run_rendered (request : events.APIGatewayProxyRequest)
    (rev : docstore.Revision) :
  ds (docIdOf request) = Ok rev ->
  docstore.readErr rev = None ->
  strings.Contains (docIdOf request) "." = false ->
  handler request
  = (fst (render rev (docstore.body rev)),
     [EvGetDoc (docIdOf request); EvReadAll rev]
       ++ snd (render rev (docstore.body rev)))%list.
Proof.
  intros Hds Hrd Hdot. unfold handler, Handler, GetDoc, ReadAll, call, bind.
  rewrite Hds, Hrd, Hdot. fold render.
  destruct (render rev (docstore.body rev)) as [r t]. reflexivity.
Qed.

(** [getTemplate], outcome by outcome. *)

Lemma template_fetch_failed (e : error) :
  ds tmplDocName = Err e ->
  template = (Err e, [EvGetDoc tmplDocName]).
Proof.
  intros Hds. unfold template, getTemplate, GetDoc, call, bind.
  rewrite Hds. reflexivity.
Qed.

Lemma template_read_failed (tmplDoc : docstore.Revision) (e : error) :
  ds tmplDocName = Ok tmplDoc ->
  docstore.readErr tmplDoc = Some e ->
  template = (Err e, [EvGetDoc tmplDocName; EvReadAll tmplDoc]).
Proof.
  intros Hds Hrd. unfold template, getTemplate, GetDoc, ReadAll, call, bind.
  rewrite Hds, Hrd. reflexivity.
Qed.

Lemma template_parsed (tmplDoc : docstore.Revision) :
  ds tmplDocName = Ok tmplDoc ->
  docstore.readErr tmplDoc = None ->
  template
  = (template_Parse "docPage" (string_of_list_byte (docstore.body tmplDoc)),
     [EvGetDoc tmplDocName; EvReadAll tmplDoc;
      EvParse "docPage" (string_of_list_byte (docstore.body tmplDoc))]).
Proof.
  intros Hds Hrd. unfold template, getTemplate, GetDoc, ReadAll, call, bind.
  rewrite Hds, Hrd. reflexivity.
Qed.

(** The rendering, by the outcome of [getTemplate] and of [Execute]. *)

Lemma render_template_failed (rev : docstore.Revision) (doc : list byte)
    (e : error) (t : list event) :
  template = (Err e, t) ->
  render rev doc = ((statusOnly 500, Some e), EvToHTML doc :: t).
Proof.
  intros Ht. unfold render, renderPage, call, bind. fold template.
  rewrite Ht. cbn. rewrite app_nil_r. reflexivity.
Qed.

Lemma render_executed (rev : docstore.Revision) (doc : list byte)
    (tmpl : Template) (t : list event) :
  template = (Ok tmpl, t) ->
  let meta := pageMetadata rev doc (markdown_ToHTML doc) in
  render rev doc
  = (match template_Execute tmpl meta with
     | (_, Some e) => (statusOnly 500, Some e)
     | (b, None) => (respondHTML b, None)
     end,
     EvToHTML doc :: t ++ [EvExecute meta])%list.
Proof.
  intros Ht meta. unfold render, renderPage, call, bind. fold template.
  rewrite Ht. fold meta.
  destruct (template_Execute tmpl meta) as [b [e|]]; reflexivity.
Qed.

End HandlerRuns.

(** ** The first line of a content cut at its first line feed *)

Lemma IndexByte_absent (b : list byte) (x : byte) :
  ~ In x b -> bytes.IndexByte b x = -1.
Proof.
  induction b as [|y b IH]; intros Hin; cbn [bytes.IndexByte]; [reflexivity|].
  destruct (Byte.eqb y x) eqn:E.
  - apply Byte.byte_dec_bl in E. subst. exfalso. apply Hin. left. reflexivity.
  - rewrite IH; [reflexivity|]. intros H. apply Hin. right. exact H.
Qed.

Lemma IndexByte_found (pre rest : list byte) (x : byte) :
  ~ In x pre ->
  bytes.IndexByte (pre ++ x :: rest) x = Z.of_nat (length pre).
Proof.
  induction pre as [|y pre IH]; intros Hin; cbn [app bytes.IndexByte length].
  - assert (Byte.eqb x x = true) as -> by (apply Byte.byte_dec_lb; reflexivity).
    reflexivity.
  - destruct (Byte.eqb y x) eqn:E.
    + apply Byte.byte_dec_bl in E. subst. exfalso. apply Hin. left. reflexivity.
    + rewrite IH by (intros H; apply Hin; right; exact H). Zbool.
Qed.

Lemma dropCR_snoc_CR (l : list byte) : bufio.dropCR (l ++ [CR]) = l.
Proof.
  unfold bufio.dropCR. rewrite last_snoc.
  change (Byte.eqb CR CR) with true. cbv iota. apply removelast_last.
Qed.

Lemma string_of_list_byte_inj (a b : list byte) :
  string_of_list_byte a = string_of_list_byte b -> a = b.
Proof.
  intros H. rewrite <- (list_byte_of_string_of_list_byte a).
  rewrite <- (list_byte_of_string_of_list_byte b). f_equal. exact H.
Qed.

(** A content with a line feed within the token limit: the title is the
    line before it, less one terminal carriage return. *)
Lemma firstLine_terminated (line rest : list byte) :
  ~ In LF line ->
  Z.of_nat (length line) < bufio.MaxScanTokenSize ->
  firstLine (line ++ LF :: rest) = string_of_list_byte (bufio.dropCR line).
Proof.
  intros Hin Hlen. rewrite firstLine_line_of. unfold line_of.
  rewrite IndexByte_found by exact Hin.
  destruct (Z.leb_spec 0 (Z.of_nat (length line))); [|lia].
  destruct (Z.ltb_spec (Z.of_nat (length line)) bufio.MaxScanTokenSize);
    [|lia].
  cbn [andb]. rewrite Nat2Z.id, take_app_length. reflexivity.
Qed.

(** A content without line feed, shorter than the token limit: the title
    is the content, less one terminal carriage return. *)
Lemma firstLine_unterminated (content : list byte) :
  ~ In LF content ->
  Z.of_nat (length content) < bufio.MaxScanTokenSize ->
  firstLine content = string_of_list_byte (bufio.dropCR content).
Proof.
  intros Hin Hlen. rewrite firstLine_line_of. unfold line_of.
  rewrite IndexByte_absent by exact Hin.
  change (0 <=? -1) with false. cbn [andb].
  destruct (Z.ltb_spec (Z.of_nat (length content)) bufio.MaxScanTokenSize);
    [reflexivity | lia].
Qed.

(** A first line that does not fit in the buffer of the scanner: the scan
    fails with [ErrTooLong] and the title is empty. *)
Lemma firstLine_too_long (line rest : list byte) :
  ~ In LF line ->
  bufio.MaxScanTokenSize <= Z.of_nat (length line) ->
  firstLine (line ++ rest) = "".
Proof.
  intros Hin Hlen. rewrite firstLine_line_of. unfold line_of.
  pose proof (IndexByte_take (length line) (line ++ rest) LF) as Ht.
  rewrite take_app_length, IndexByte_absent in Ht by exact Hin.
  rewrite length_app.
  destruct (Z.leb_spec 0 (bytes.IndexByte (line ++ rest) LF)) as [Hi|Hi];
    destruct (Z.ltb_spec (bytes.IndexByte (line ++ rest) LF)
                (Z.of_nat (length line))) as [Hl|Hl];
    cbn [andb] in Ht; Zbool.
Qed.

(** ** Title extraction *)

(** C5, as stated, fails.  The content [Hello], carriage return,
    [World], carriage return has no line feed.  [firstLine] returns it
    less its last byte: neither the whole content, which is its first
    line if a lone carriage return is no line break, nor [Hello], which
    is its first line if it is one. *)
Lemma C5_final_carriage_return_dropped :
  let content := (B "Hello" ++ [CR] ++ B "World" ++ [CR])%list in
  firstLine content = string_of_list_byte (B "Hello" ++ [CR] ++ B "World")
  /\ title_spec false content = content
  /\ title_spec true content = B "Hello"
  /\ firstLine content <> string_of_list_byte (title_spec false content)
  /\ firstLine content <> string_of_list_byte (title_spec true content).
Proof.
  cbv zeta. split; [vm_compute; reflexivity|].
  split; [vm_compute; reflexivity|].
  split; [vm_compute; reflexivity|].
  split; vm_compute; discriminate.
Qed.

(** C5, amended.  The title is the content before its first line feed,
    or the whole content when it has none, less one terminal carriage
    return, as long as the line feed (or else the end of the content)
    lies within the first 65536 bytes.  The three titles of the claim are
    as it says. *)
Theorem C5_title_is_first_line (content : list byte) :
  (forall line rest : list byte,
      content = (line ++ LF :: rest)%list ->
      ~ In LF line ->
      Z.of_nat (length line) < 65536 ->
      firstLine content = string_of_list_byte (bufio.dropCR line))
  /\ (~ In LF content ->
      Z.of_nat (length content) < 65536 ->
      firstLine content = string_of_list_byte (bufio.dropCR content))
  /\ firstLine (B "Hello" ++ [LF] ++ B "World") = "Hello"
  /\ firstLine (B "Hello World") = "Hello World"
  /\ firstLine [] = "".
Proof.
  split; [|split].
  - intros line rest -> Hin Hlen. apply firstLine_terminated; assumption.
  - intros Hin Hlen. apply firstLine_unterminated; assumption.
  - repeat split; vm_compute; reflexivity.
Qed.

Lemma C5_title_is_first_line_witness :
  firstLine (B "# Welcome" ++ LF :: B "Body text") = "# Welcome"
  /\ firstLine (B "Hello World") = "Hello World".
Proof.
  split.
  - apply (proj1 (C5_title_is_first_line (B "# Welcome" ++ LF :: B "Body text"))
             (B "# Welcome") (B "Body text")).
    + reflexivity.
    + vm_compute. intuition discriminate.
    + vm_compute. reflexivity.
  - apply (proj1 (proj2 (C5_title_is_first_line (B "Hello World")))).
    + vm_compute. intuition discriminate.
    + vm_compute. reflexivity.
Defined.

(** Windows line endings: when the first line ends with a carriage
    return and a line feed, the title is never the line with the carriage
    return left on it, and it is the line itself within the token limit
    of the scanner; the title of [Hello], carriage return, line feed,
    [World] is [Hello]. *)
Lemma crlf_title_within_limit (line rest : list byte) :
  ~ In LF line ->
  firstLine (line ++ [CR; LF] ++ rest) <> string_of_list_byte (line ++ [CR])
  /\ (Z.of_nat (length line) + 2 <= 65536 ->
      firstLine (line ++ [CR; LF] ++ rest) = string_of_list_byte line)
  /\ firstLine (B "Hello" ++ [CR; LF] ++ B "World") = "Hello".
Proof.
  intros Hin.
  assert (Hin' : ~ In LF (line ++ [CR])).
  { rewrite in_app_iff. cbn [In]. intros [H|[H|[]]]; [auto | discriminate H]. }
  assert (Heq : (line ++ [CR; LF] ++ rest = (line ++ [CR]) ++ LF :: rest)%list).
  { rewrite <- app_assoc. reflexivity. }
  rewrite Heq.
  destruct (Z.ltb_spec (Z.of_nat (length (line ++ [CR])))
              bufio.MaxScanTokenSize) as [Hfit|Hlong].
  - rewrite firstLine_terminated, dropCR_snoc_CR by assumption.
    split; [|split].
    + intros H. apply string_of_list_byte_inj in H.
      apply (f_equal (@length byte)) in H. rewrite length_app in H.
      cbn [length] in H. lia.
    + reflexivity.
    + vm_compute. reflexivity.
  - rewrite firstLine_too_long by assumption.
    split; [|split].
    + change "" with (string_of_list_byte []).
      intros H. apply string_of_list_byte_inj in H.
      destruct line; discriminate H.
    + rewrite length_app in Hlong. cbn [length] in Hlong.
      unfold bufio.MaxScanTokenSize in Hlong. lia.
    + vm_compute. reflexivity.
Qed.


(** ** Classification and the responses of the fetch stage *)

(** C2.  An identifier with a dot is classified [Raw] and one without is
    classified [MarkdownTemplated]; the classification reads the
    identifier alone, and it is the one the handler follows once the
    document is fetched and read, whatever its content. *)
Theorem C2_classification_by_dot (docId : string) :
  (has_dot docId -> classify docId = Raw)
  /\ (~ has_dot docId -> classify docId = MarkdownTemplated)
  /\ (forall (ds : docstore.DocStore) (ToHTML : list byte -> list byte)
        (Template : Type) (Parse : string -> string -> result Template)
        (Execute : Template -> docMetadata -> string * option error)
        (request : events.APIGatewayProxyRequest) (rev : docstore.Revision),
        docIdOf request = docId ->
        ds docId = Ok rev ->
        docstore.readErr rev = None ->
        Handler ds ToHTML Template Parse Execute request
        = match classify docId with
          | Raw =>
              ((respondHTML (string_of_list_byte (docstore.body rev)), None),
               [EvGetDoc docId; EvReadAll rev])
          | MarkdownTemplated =>
              let page :=
                renderPage ds ToHTML Template Parse Execute rev
                  (docstore.body rev) in
              (fst page, ([EvGetDoc docId; EvReadAll rev] ++ snd page)%list)
          end).
Proof.
  unfold classify. split; [|split].
  - intros H. apply Contains_dot_spec in H. rewrite H. reflexivity.
  - intros H. destruct (strings.Contains docId ".") eqn:E; [|reflexivity].
    exfalso. apply H, Contains_dot_spec, E.
  - intros ds ToHTML Template Parse Execute request rev <- Hds Hrd.
    destruct (strings.Contains (docIdOf request) ".") eqn:E.
    + apply run_raw; assumption.
    + apply run_rendered; assumption.
Qed.

Lemma C2_classification_by_dot_witness :
  classify "notes.txt" = Raw /\ classify "intro" = MarkdownTemplated.
Proof.
  split.
  - apply (proj1 (C2_classification_by_dot "notes.txt")).
    vm_compute. intuition.
  - apply (proj1 (proj2 (C2_classification_by_dot "intro"))).
    vm_compute. intuition discriminate.
Defined.

(** C3.  A request whose identifier has a dot and whose document is
    fetched and read gets status 200, the header Content-Type: text/html
    and the content as its body, and the handler has only fetched and
    read the document: no markdown conversion, no template fetch, no
    composition. *)
Theorem C3_raw_passthrough
    (ds : docstore.DocStore) (ToHTML : list byte -> list byte)
    (Template : Type) (Parse : string -> string -> result Template)
    (Execute : Template -> docMetadata -> string * option error)
    (request : events.APIGatewayProxyRequest) (rev : docstore.Revision) :
  has_dot (docIdOf request) ->
  ds (docIdOf request) = Ok rev ->
  docstore.readErr rev = None ->
  Handler ds ToHTML Template Parse Execute request
  = ((events.mkResponse 200 {[ "Content-Type" := "text/html" ]}
        (string_of_list_byte (docstore.body rev)) false,
      None),
     [EvGetDoc (docIdOf request); EvReadAll rev]).
Proof.
  intros Hdot Hds Hrd. apply Contains_dot_spec in Hdot.
  apply run_raw; assumption.
Qed.

Lemma C3_raw_passthrough_witness :
  Fixture.handle (Fixture.request "notes.txt")
  = ((events.mkResponse 200 {[ "Content-Type" := "text/html" ]}
        "<b>hi</b>" false,
      None),
     [EvGetDoc "notes.txt"; EvReadAll (Fixture.revision (B "<b>hi</b>"))]).
Proof.
  apply (C3_raw_passthrough Fixture.store Fixture.ToHTML template.Tree
           Fixture.Parse template.Execute (Fixture.request "notes.txt")
           (Fixture.revision (B "<b>hi</b>"))).
  - vm_compute. intuition.
  - reflexivity.
  - reflexivity.
Defined.

(** C4.  A request whose identifier has no stored document gets status
    404 with an empty body, and after the failed fetch the handler only
    logs: no classification, render, template or composition. *)
Theorem C4_not_found
    (ds : docstore.DocStore) (ToHTML : list byte -> list byte)
    (Template : Type) (Parse : string -> string -> result Template)
    (Execute : Template -> docMetadata -> string * option error)
    (request : events.APIGatewayProxyRequest) :
  ds (docIdOf request) = Err NotFound ->
  Handler ds ToHTML Template Parse Execute request
  = ((events.mkResponse 404 ∅ "" false, None),
     [EvGetDoc (docIdOf request); EvLog "GetDoc error: " NotFound]).
Proof. intros Hds. apply run_fetch_failed. exact Hds. Qed.

Lemma C4_not_found_witness :
  Fixture.handle (Fixture.request "no-such-doc")
  = ((events.mkResponse 404 ∅ "" false, None),
     [EvGetDoc "no-such-doc"; EvLog "GetDoc error: " NotFound]).
Proof.
  apply (C4_not_found Fixture.store Fixture.ToHTML template.Tree
           Fixture.Parse template.Execute (Fixture.request "no-such-doc")).
  reflexivity.
Defined.

(** C1, as stated, fails.  When the store is unreachable the fetch fails
    with [StorageUnavailable] and the handler answers 404, not 500. *)
Lemma C1_storage_unavailable_is_404 :
  Fixture.store (docIdOf (Fixture.request "offline")) = Err StorageUnavailable
  /\ events.StatusCode (fst (fst (Fixture.handle (Fixture.request "offline"))))
     = 404
  /\ events.StatusCode (fst (fst (Fixture.handle (Fixture.request "offline"))))
     <> 500.
Proof.
  split; [reflexivity|]. split; [reflexivity|]. vm_compute. discriminate.
Qed.

(** C1, amended.  A failure of the fetch itself, of whatever kind, gets
    status 404 with a nil error: the handler does not tell
    [StorageUnavailable] from [NotFound].  A failure while the content of
    a fetched document is read gets status 500. *)
Theorem C1_fetch_failures
    (ds : docstore.DocStore) (ToHTML : list byte -> list byte)
    (Template : Type) (Parse : string -> string -> result Template)
    (Execute : Template -> docMetadata -> string * option error)
    (request : events.APIGatewayProxyRequest) :
  (forall e : error,
      ds (docIdOf request) = Err e ->
      fst (Handler ds ToHTML Template Parse Execute request)
      = (statusOnly 404, None))
  /\ (forall (rev : docstore.Revision) (e : error),
      ds (docIdOf request) = Ok rev ->
      docstore.readErr rev = Some e ->
      fst (Handler ds ToHTML Template Parse Execute request)
      = (statusOnly 500, Some e)).
Proof.
  split.
  - intros e Hds. erewrite run_fetch_failed by exact Hds. reflexivity.
  - intros rev e Hds Hrd.
    erewrite run_read_failed by eassumption. reflexivity.
Qed.

Lemma C1_fetch_failures_witness :
  fst (Fixture.handle (Fixture.request "offline")) = (statusOnly 404, None)
  /\ fst (Fixture.handle (Fixture.request "broken"))
     = (statusOnly 500, Some ReadError).
Proof.
  split.
  - apply (proj1 (C1_fetch_failures Fixture.store Fixture.ToHTML template.Tree
             Fixture.Parse template.Execute (Fixture.request "offline"))
             StorageUnavailable).
    reflexivity.
  - apply (proj2 (C1_fetch_failures Fixture.store Fixture.ToHTML template.Tree
             Fixture.Parse template.Execute (Fixture.request "broken"))
             Fixture.unreadable ReadError); reflexivity.
Defined.

(** ** Every run of the handler is one of six *)

Section HandlerCases.

Variable ds : docstore.DocStore.
Variable markdown_ToHTML : list byte -> list byte.
Variable Template : Type.
Variable template_Parse : string -> string -> result Template.
Variable template_Execute :
  Template -> docMetadata -> string * option error.

Let handler :=
  Handler ds markdown_ToHTML Template template_Parse template_Execute.
Let template := getTemplate ds Template template_Parse.

(** The calls of [getTemplate] are a fetch, a read and a parse. *)
Lemma getTemplate_trace :
  exists t, snd template = (EvGetDoc tmplDocName :: t)%list
            /\ forall ev, In ev t ->
                 (exists d, ev = EvReadAll d)
                 \/ (exists src, ev = EvParse "docPage" src).
Proof.
  destruct (ds tmplDocName) as [d|e] eqn:Hds.
  - destruct (docstore.readErr d) as [e|] eqn:Hrd.
    + unfold template. erewrite template_read_failed by eassumption.
      eexists. split; [reflexivity|]. intros ev [<-|[]]. left. eauto.
    + unfold template. erewrite template_parsed by eassumption.
      eexists. split; [reflexivity|].
      intros ev [<-|[<-|[]]]; [left | right]; eauto.
  - unfold template. erewrite template_fetch_failed by eassumption.
    eexists. split; [reflexivity|]. intros ev [].
Qed.

(** The six runs: fetch failed, read failed, raw, template failed,
    composition failed, page composed. *)
Lemma handler_cases (request : events.APIGatewayProxyRequest) :
  let docId := docIdOf request in
  (exists e, ds docId = Err e
     /\ handler request
        = ((statusOnly 404, None), [EvGetDoc docId; EvLog "GetDoc error: " e]))
  \/ (exists rev e, ds docId = Ok rev /\ docstore.readErr rev = Some e
     /\ handler request
        = ((statusOnly 500, Some e),
           [EvGetDoc docId; EvReadAll rev; EvLog "ReadAll error: " e]))
  \/ (exists rev, ds docId = Ok rev /\ docstore.readErr rev = None
     /\ strings.Contains docId "." = true
     /\ handler request
        = ((respondHTML (string_of_list_byte (docstore.body rev)), None),
           [EvGetDoc docId; EvReadAll rev]))
  \/ (exists rev e, ds docId = Ok rev /\ docstore.readErr rev = None
     /\ strings.Contains docId "." = false
     /\ fst template = Err e
     /\ handler request
        = ((statusOnly 500, Some e),
           [EvGetDoc docId; EvReadAll rev; EvToHTML (docstore.body rev)]
             ++ snd template)%list)
  \/ (exists rev tmpl, ds docId = Ok rev /\ docstore.readErr rev = None
     /\ strings.Contains docId "." = false
     /\ fst template = Ok tmpl
     /\ let meta :=
          pageMetadata rev (docstore.body rev)
            (markdown_ToHTML (docstore.body rev)) in
        ((exists e, snd (template_Execute tmpl meta) = Some e
            /\ fst (handler request) = (statusOnly 500, Some e))
         \/ (snd (template_Execute tmpl meta) = None
            /\ fst (handler request)
               = (respondHTML (fst (template_Execute tmpl meta)), None)))
        /\ snd (handler request)
           = ([EvGetDoc docId; EvReadAll rev; EvToHTML (docstore.body rev)]
                ++ snd template ++ [EvExecute meta])%list).
Proof.
  intros docId. subst docId.
  destruct (ds (docIdOf request)) as [rev|e] eqn:Hds.
  2: { left. exists e. split; [reflexivity|].
       apply run_fetch_failed. exact Hds. }
  right. destruct (docstore.readErr rev) as [e|] eqn:Hrd.
  { left. exists rev, e. repeat (split; [first [reflexivity|assumption]|]).
    apply run_read_failed; assumption. }
  right. destruct (strings.Contains (docIdOf request) ".") eqn:Hdot.
  { left. exists rev. repeat (split; [first [reflexivity|assumption]|]).
    apply run_raw; assumption. }
  right. unfold handler.
  rewrite (run_rendered ds markdown_ToHTML Template template_Parse
             template_Execute request rev) by assumption.
  fold template. destruct template as [[tmpl|e] t] eqn:Htmpl.
  - right. exists rev, tmpl.
    repeat (split; [first [reflexivity|assumption]|]).
    erewrite render_executed by exact Htmpl. cbn [fst snd].
    split; [|reflexivity].
    destruct (template_Execute tmpl _) as [b [e|]]; cbn [fst snd].
    + left. exists e. split; reflexivity.
    + right. split; reflexivity.
  - left. exists rev, e. repeat (split; [first [reflexivity|assumption]|]).
    erewrite render_template_failed by exact Htmpl. reflexivity.
Qed.

End HandlerCases.

(** ** strings.Contains decides the occurrence of a substring *)

Lemma append_assoc (a b c : string) : (a ++ b) ++ c = a ++ b ++ c.
Proof.
  induction a as [|x a IH]; [reflexivity|].
  change (String x ((a ++ b) ++ c) = String x (a ++ b ++ c)).
  f_equal. exact IH.
Qed.


Lemma HasPrefix_spec (s prefix : string) :
  strings.HasPrefix s prefix = true <-> exists q, s = prefix ++ q.
Proof.
  revert s. induction prefix as [|c prefix IH]; intros s; cbn.
  - split; [eauto | reflexivity].
  - destruct s as [|d s].
    + split; [discriminate | intros [q Hq]; discriminate Hq].
    + rewrite andb_true_iff, Ascii.eqb_eq, IH. split.
      * intros [-> [q ->]]. eauto.
      * intros [q Hq]. injection Hq as -> ->. eauto.
Qed.

Lemma Substring_here (sub q : string) : Substring sub (sub ++ q).
Proof. exists "", q. reflexivity. Qed.

Lemma Substring_later (sub pre s : string) :
  Substring sub s -> Substring sub (pre ++ s).
Proof.
  intros (p & q & ->). exists (pre ++ p), q. symmetry. apply append_assoc.
Qed.

Lemma Index_spec (s sub : string) :
  0 <= strings.Index s sub <-> Substring sub s.
Proof.
  induction s as [|c s IH].
  - cbn [strings.Index]. destruct (strings.HasPrefix "" sub) eqn:E.
    + apply HasPrefix_spec in E as [q Hq]. split; [|lia]. intros _.
      rewrite Hq. apply Substring_here.
    + split; [lia|]. intros (p & q & H). exfalso.
      destruct p; [|discriminate H]. cbn in H.
      assert (strings.HasPrefix "" sub = true) as E'
        by (apply HasPrefix_spec; eauto).
      congruence.
  - rewrite Index_cons.
    destruct (strings.HasPrefix (String c s) sub) eqn:E.
    + apply HasPrefix_spec in E as [q Hq]. split; [|lia]. intros _.
      rewrite Hq. apply Substring_here.
    + pose proof (Index_lower s sub) as Hlo.
      destruct (Z.ltb_spec (strings.Index s sub) 0) as [Hneg|Hpos].
      * split; [lia|]. intros (p & q & H). exfalso.
        destruct p as [|d p].
        -- assert (strings.HasPrefix (String c s) sub = true) as E'
             by (apply HasPrefix_spec; eauto).
           congruence.
        -- injection H as -> ->.
           assert (0 <= strings.Index (p ++ sub ++ q) sub)
             by (apply IH; exists p, q; reflexivity).
           lia.
      * split; [|lia]. intros _.
        apply (Substring_later sub (String c "") s). apply IH. lia.
Qed.

Lemma Contains_spec (s sub : string) :
  strings.Contains s sub = true <-> Substring sub s.
Proof.
  unfold strings.Contains. rewrite Z.leb_le. apply Index_spec.
Qed.

(** ** Composition *)

Lemma Execute_text (text : string) (rest : template.Tree) (data : docMetadata) :
  template.Execute (template.TextNode text :: rest) data
  = (text ++ fst (template.Execute rest data),
     snd (template.Execute rest data)).
Proof. cbn. destruct (template.Execute rest data). reflexivity. Qed.

Lemma Execute_placeholder (name v : string) (rest : template.Tree)
    (data : docMetadata) :
  template.field data name = Some v ->
  template.Execute (template.placeholder name :: rest) data
  = (v ++ fst (template.Execute rest data),
     snd (template.Execute rest data)).
Proof.
  intros Hf. cbn. unfold template.evalField. rewrite Hf.
  destruct (template.Execute rest data). reflexivity.
Qed.

(** A composition that succeeds has printed the value of every
    placeholder of the tree. *)
Lemma Execute_prints (tree : template.Tree) (data : docMetadata)
    (name v : string) :
  snd (template.Execute tree data) = None ->
  In (template.placeholder name) tree ->
  template.field data name = Some v ->
  Substring v (fst (template.Execute tree data)).
Proof.
  intros Hok Hin Hf. induction tree as [|node tree IH]; [destruct Hin|].
  destruct node as [text|n chain].
  - rewrite Execute_text in *. cbn [fst snd] in *.
    destruct Hin as [Heq|Hin]; [discriminate Heq|].
    apply Substring_later. apply IH; assumption.
  - cbn in Hok |- *.
    destruct (template.evalField data n chain) as [w|e] eqn:Hev;
      [|discriminate Hok].
    destruct (template.Execute tree data) as [out e'] eqn:Hrest.
    cbn [fst snd] in *.
    destruct Hin as [Heq|Hin].
    + injection Heq as -> ->. unfold template.evalField in Hev.
      rewrite Hf in Hev. injection Hev as <-. apply Substring_here.
    + apply Substring_later. apply IH; assumption.
Qed.

(** A tree of text and placeholders of fields of [docMetadata] always
    composes. *)
Lemma Execute_plain (tree : template.Tree) (data : docMetadata) :
  Forall plain tree -> snd (template.Execute tree data) = None.
Proof.
  induction 1 as [|node tree Hnode _ IH]; [reflexivity|].
  destruct node as [text|n chain].
  - rewrite Execute_text. exact IH.
  - destruct Hnode as [Hfield ->].
    assert (exists v, template.field data n = Some v) as [v Hv].
    { unfold isField in Hfield. unfold template.field.
      destruct (String.eqb n "Title"); [eauto|].
      destruct (String.eqb n "DocBody"); [eauto|].
      destruct (String.eqb n "Timestamp"); [eauto|].
      destruct (String.eqb n "Version"); [eauto|]. discriminate Hfield. }
    change (template.FieldNode n []) with (template.placeholder n).
    rewrite (Execute_placeholder n v) by exact Hv. exact IH.
Qed.

(** And only such a tree composes. *)
Lemma Execute_only_plain (tree : template.Tree) (data : docMetadata) :
  snd (template.Execute tree data) = None -> Forall plain tree.
Proof.
  induction tree as [|node tree IH]; intros Hok; [constructor|].
  destruct node as [text|n chain].
  - rewrite Execute_text in Hok. constructor; [exact I | apply IH, Hok].
  - cbn in Hok. unfold template.evalField in Hok.
    destruct (template.field data n) as [v|] eqn:Hf; [|discriminate Hok].
    destruct chain as [|f chain]; [|discriminate Hok].
    destruct (template.Execute tree data) as [out e] eqn:Hrest.
    cbn [snd] in Hok. constructor; [|apply IH, Hok].
    split; [|reflexivity]. unfold template.field in Hf. unfold isField.
    destruct (String.eqb n "Title"); [reflexivity|].
    destruct (String.eqb n "DocBody"); [reflexivity|].
    destruct (String.eqb n "Timestamp"); [reflexivity|].
    destruct (String.eqb n "Version"); [reflexivity|]. discriminate Hf.
Qed.

(** C7, as stated, fails.  A template that has the four placeholders and
    also asks for a field [docMetadata] lacks does not compose: the
    execution stops with an error on that field, nothing of the title is
    in the output, and the handler answers 500 with an empty body. *)
Lemma C7_unknown_field_stops_composition :
  has_placeholders Fixture.authorTree
  /\ template.Execute Fixture.authorTree Fixture.welcome
     = ("", Some (ExecError "Author"))
  /\ strings.Contains
       (fst (template.Execute Fixture.authorTree Fixture.welcome))
       (Title Fixture.welcome) = false
  /\ fst (Handler Fixture.store Fixture.ToHTML template.Tree
            (fun _ _ => Ok Fixture.authorTree) template.Execute
            (Fixture.request "intro"))
     = (statusOnly 500, Some (ExecError "Author")).
Proof.
  split.
  { unfold has_placeholders, Fixture.authorTree, Fixture.tmplTree.
    cbn [In]. tauto. }
  repeat split; vm_compute; reflexivity.
Qed.

(** C7, amended.  For every template tree of text and field actions that
    has the title, body, timestamp and version placeholders: if it refers
    to fields of the page metadata only, composing it with body B, title
    T, timestamp S and version V succeeds and the output contains B, T, S
    and the decimal rendering of V; if it refers to anything else, the
    composition fails. *)
Theorem C7_composition_keeps_fields (tree : template.Tree)
    (data : docMetadata) :
  has_placeholders tree ->
  (Forall plain tree ->
   let out := fst (template.Execute tree data) in
   snd (template.Execute tree data) = None
   /\ strings.Contains out (DocBody data) = true
   /\ strings.Contains out (Title data) = true
   /\ strings.Contains out (Timestamp data) = true
   /\ strings.Contains out (strconv.Itoa (Version data)) = true)
  /\ (~ Forall plain tree ->
      exists e, snd (template.Execute tree data) = Some e).
Proof.
  intros (HT & HB & HS & HV). split.
  - intros Hplain out. subst out.
    pose proof (Execute_plain tree data Hplain) as Hok.
    rewrite !Contains_spec. repeat split.
    + exact Hok.
    + apply (Execute_prints tree data "DocBody"); auto.
    + apply (Execute_prints tree data "Title"); auto.
    + apply (Execute_prints tree data "Timestamp"); auto.
    + apply (Execute_prints tree data "Version"); auto.
  - intros Hnot. destruct (snd (template.Execute tree data)) as [e|] eqn:E.
    + eauto.
    + exfalso. apply Hnot. apply (Execute_only_plain tree data E).
Qed.

Lemma C7_composition_keeps_fields_witness :
  let out := fst (template.Execute Fixture.tmplTree Fixture.welcome) in
  snd (template.Execute Fixture.tmplTree Fixture.welcome) = None
  /\ strings.Contains out "<p>Body</p>" = true
  /\ strings.Contains out "Welcome" = true
  /\ strings.Contains out "Tuesday, 04-May-21 10:00:00 UTC" = true
  /\ strings.Contains out "3" = true.
Proof.
  apply (proj1 (C7_composition_keeps_fields Fixture.tmplTree Fixture.welcome
    ltac:(unfold has_placeholders, Fixture.tmplTree; cbn [In]; tauto))).
  unfold Fixture.tmplTree. repeat constructor.
Defined.

(** ** The timestamp of the page *)


Section Executed.

Variable ds : docstore.DocStore.
Variable markdown_ToHTML : list byte -> list byte.
Variable Template : Type.
Variable template_Parse : string -> string -> result Template.
Variable template_Execute :
  Template -> docMetadata -> string * option error.

(** The metadata a template is executed with is that of the page of the
    document fetched. *)
Lemma executed_metadata (request : events.APIGatewayProxyRequest)
    (meta : docMetadata) :
  In (EvExecute meta)
     (snd (Handler ds markdown_ToHTML Template template_Parse
             template_Execute request)) ->
  exists rev,
    ds (docIdOf request) = Ok rev
    /\ meta = pageMetadata rev (docstore.body rev)
                (markdown_ToHTML (docstore.body rev)).
Proof.
  intros Hin.
  destruct (getTemplate_trace ds Template template_Parse)
    as (t & Ht & Hevs).
  assert (Hnot : ~ In (EvExecute meta)
                       (snd (getTemplate ds Template template_Parse))).
  { rewrite Ht. intros [H|H]; [discriminate H|].
    destruct (Hevs _ H) as [[d Hd]|[src Hd]]; discriminate Hd. }
  destruct (handler_cases ds markdown_ToHTML Template template_Parse
              template_Execute request)
    as [(e & _ & Hrun)|[(rev & e & _ & _ & Hrun)|[(rev & _ & _ & _ & Hrun)
       |[(rev & e & _ & _ & _ & _ & Hrun)
       |(rev & tmpl & Hds & _ & _ & _ & _ & Hrun)]]]].
  1-4: rewrite Hrun in Hin; cbn [snd In app] in Hin.
  - destruct Hin as [H|[H|[]]]; discriminate H.
  - destruct Hin as [H|[H|[H|[]]]]; discriminate H.
  - destruct Hin as [H|[H|[]]]; discriminate H.
  - destruct Hin as [H|[H|[H|H]]]; try discriminate H. contradiction.
  - rewrite Hrun in Hin. cbn [In app] in Hin.
    destruct Hin as [H|[H|[H|H]]]; try discriminate H.
    apply in_app_iff in H as [H|[H|[]]]; [contradiction|].
    injection H as <-. exists rev. split; [exact Hds | reflexivity].
Qed.

End Executed.



(** ** The template of a templated request *)

(** C8.  Every templated request fetches the template from the store
    under the identifier "doc-template.html" and parses it during the
    request; a failure to fetch it, to read it or to parse it gets status
    500 and ends the run; the template executed is the one just
    parsed. *)
Theorem C8_template_fetched_and_parsed
    (ds : docstore.DocStore) (ToHTML : list byte -> list byte)
    (Template : Type) (Parse : string -> string -> result Template)
    (Execute : Template -> docMetadata -> string * option error)
    (request : events.APIGatewayProxyRequest) (rev : docstore.Revision) :
  ds (docIdOf request) = Ok rev ->
  docstore.readErr rev = None ->
  ~ has_dot (docIdOf request) ->
  let run := Handler ds ToHTML Template Parse Execute request in
  let fetching :=
    [EvGetDoc (docIdOf request); EvReadAll rev;
     EvToHTML (docstore.body rev); EvGetDoc "doc-template.html"] in
  (exists rest, snd run = (fetching ++ rest)%list)
  /\ (forall e : error,
        ds "doc-template.html" = Err e ->
        run = ((statusOnly 500, Some e), fetching))
  /\ (forall (tmplDoc : docstore.Revision) (e : error),
        ds "doc-template.html" = Ok tmplDoc ->
        docstore.readErr tmplDoc = Some e ->
        run = ((statusOnly 500, Some e),
               (fetching ++ [EvReadAll tmplDoc])%list))
  /\ (forall tmplDoc : docstore.Revision,
        ds "doc-template.html" = Ok tmplDoc ->
        docstore.readErr tmplDoc = None ->
        let src := string_of_list_byte (docstore.body tmplDoc) in
        let parsing :=
          (fetching ++ [EvReadAll tmplDoc; EvParse "docPage" src])%list in
        (forall e : error,
            Parse "docPage" src = Err e ->
            run = ((statusOnly 500, Some e), parsing))
        /\ (forall tmpl : Template,
            Parse "docPage" src = Ok tmpl ->
            exists meta,
              snd run = (parsing ++ [EvExecute meta])%list
              /\ fst run
                 = match Execute tmpl meta with
                   | (_, Some e) => (statusOnly 500, Some e)
                   | (b, None) => (respondHTML b, None)
                   end)).
Proof.
  intros Hds Hrd Hdot run fetching.
  assert (Hno : strings.Contains (docIdOf request) "." = false).
  { destruct (strings.Contains (docIdOf request) ".") eqn:E; [|reflexivity].
    exfalso. apply Hdot, Contains_dot_spec, E. }
  assert (Hrun : run
    = (fst (renderPage ds ToHTML Template Parse Execute rev
              (docstore.body rev)),
       ([EvGetDoc (docIdOf request); EvReadAll rev]
          ++ snd (renderPage ds ToHTML Template Parse Execute rev
                    (docstore.body rev)))%list))
    by (apply run_rendered; assumption).
  change "doc-template.html" with tmplDocName in *.
  split; [|split; [|split]].
  - rewrite Hrun. cbn [snd].
    destruct (getTemplate_trace ds Template Parse) as (t & Ht & _).
    destruct (getTemplate ds Template Parse) as [[tmpl|e] t'] eqn:Htmpl;
      cbn [snd] in Ht; subst t'.
    + erewrite render_executed by exact Htmpl. cbn [snd]. eexists.
      reflexivity.
    + erewrite render_template_failed by exact Htmpl. cbn [snd]. eexists.
      reflexivity.
  - intros e He. rewrite Hrun.
    erewrite render_template_failed
      by (apply template_fetch_failed; exact He).
    reflexivity.
  - intros tmplDoc e Hd He. rewrite Hrun.
    erewrite render_template_failed
      by (apply template_read_failed; eassumption).
    reflexivity.
  - intros tmplDoc Hd Hr src parsing.
    pose proof (template_parsed ds Template Parse tmplDoc Hd Hr) as Htmpl.
    fold src in Htmpl. split.
    + intros e He. rewrite He in Htmpl. rewrite Hrun.
      erewrite render_template_failed by exact Htmpl. reflexivity.
    + intros tmpl Hp. rewrite Hp in Htmpl. rewrite Hrun.
      erewrite render_executed by exact Htmpl. cbn [fst snd].
      eexists. split; reflexivity.
Qed.

Lemma C8_template_fetched_and_parsed_witness :
  Handler Fixture.store_no_template Fixture.ToHTML template.Tree
    Fixture.Parse template.Execute (Fixture.request "intro")
  = ((statusOnly 500, Some NotFound),
     [EvGetDoc "intro"; EvReadAll (Fixture.revision Fixture.intro);
      EvToHTML Fixture.intro; EvGetDoc "doc-template.html"]).
Proof.
  apply (proj1 (proj2 (C8_template_fetched_and_parsed
           Fixture.store_no_template Fixture.ToHTML template.Tree
           Fixture.Parse template.Execute (Fixture.request "intro")
           (Fixture.revision Fixture.intro)
           ltac:(reflexivity) ltac:(reflexivity)
           ltac:(vm_compute; intuition discriminate)))).
  reflexivity.
Defined.

(** ** The error returned with the response *)

(** C9.  The status and the error of every run, by the branch taken: a
    failed fetch gives 404 with a nil error; a failed read of the
    content, a failure of [getTemplate] in a run that reached it, and a
    failed execution of the template each give 500 with that very error;
    the two successes give 200 with a nil error.  Hence the error is nil
    exactly with the statuses 200 and 404, and not nil exactly with
    500. *)
Theorem C9_returned_error
    (ds : docstore.DocStore) (ToHTML : list byte -> list byte)
    (Template : Type) (Parse : string -> string -> result Template)
    (Execute : Template -> docMetadata -> string * option error)
    (request : events.APIGatewayProxyRequest) :
  let docId := docIdOf request in
  let run := fst (Handler ds ToHTML Template Parse Execute request) in
  let status := events.StatusCode (fst run) in
  (status, snd run)
  = match ds docId with
    | Err _ => (404, None)
    | Ok rev =>
        match docstore.readErr rev with
        | Some e => (500, Some e)
        | None =>
            if strings.Contains docId "." then (200, None)
            else
              match fst (getTemplate ds Template Parse) with
              | Err e => (500, Some e)
              | Ok tmpl =>
                  match snd (Execute tmpl
                               (pageMetadata rev (docstore.body rev)
                                  (ToHTML (docstore.body rev)))) with
                  | Some e => (500, Some e)
                  | None => (200, None)
                  end
              end
        end
    end
  /\ (status = 200 \/ status = 404 \/ status = 500)
  /\ (snd run = None <-> status = 200 \/ status = 404)
  /\ (status = 500 <-> exists e, snd run = Some e)
  /\ (status = 404 <-> exists e, ds docId = Err e).
Proof.
  intros docId run status. subst docId run status.
  destruct (handler_cases ds ToHTML Template Parse Execute request)
    as [(e & Hds & Hrun)|[(rev & e & Hds & Hrd & Hrun)
       |[(rev & Hds & Hrd & Hdot & Hrun)
       |[(rev & e & Hds & Hrd & Hdot & Ht & Hrun)
       |(rev & tmpl & Hds & Hrd & Hdot & Ht
         & [(e & He & Hrun)|(He & Hrun)] & _)]]]];
    rewrite Hrun, Hds; try rewrite Hrd; try rewrite Hdot;
    try rewrite Ht; try rewrite He;
    cbn [fst snd events.StatusCode statusOnly respondHTML].
  all: split; [reflexivity|].
  all: split; [tauto|].
  all: split; [split; [try discriminate; tauto
                      | intros [H|H]; try discriminate H; reflexivity]|].
  all: split; [split; [try discriminate; eauto
                      | intros [e' He']; try discriminate He'; reflexivity]|].
  all: split; [try discriminate; eauto
              | intros [e' He']; try discriminate He'; reflexivity].
Qed.

Lemma C9_returned_error_witness :
  (let run := fst (Fixture.handle (Fixture.request "broken")) in
   (events.StatusCode (fst run), snd run) = (500, Some ReadError))
  /\ (let run :=
        fst (Handler Fixture.store_no_template Fixture.ToHTML template.Tree
               Fixture.Parse template.Execute (Fixture.request "intro")) in
      (events.StatusCode (fst run), snd run) = (500, Some NotFound)).
Proof.
  split.
  - exact (proj1 (C9_returned_error Fixture.store Fixture.ToHTML
             template.Tree Fixture.Parse template.Execute
             (Fixture.request "broken"))).
  - exact (proj1 (C9_returned_error Fixture.store_no_template Fixture.ToHTML
             template.Tree Fixture.Parse template.Execute
             (Fixture.request "intro"))).
Defined.

(** * Further properties of [firstLine], [getTemplate] and [Handler] *)

(** ** The title *)

Lemma IndexByte_none (b : list byte) (x : byte) :
  bytes.IndexByte b x < 0 -> ~ In x b.
Proof.
  induction b as [|y b IH]; cbn [bytes.IndexByte In]; [tauto|].
  destruct (Byte.eqb y x) eqn:E; [lia|].
  pose proof (IndexByte_bounds b x) as Hb.
  destruct (Z.ltb_spec (bytes.IndexByte b x) 0) as [Hneg|Hpos]; [|lia].
  intros _ [->|Hin]; [|exact (IH Hneg Hin)].
  rewrite (Byte.byte_dec_lb (eq_refl x)) in E. discriminate E.
Qed.

Lemma IndexByte_before (b : list byte) (x : byte) :
  0 <= bytes.IndexByte b x ->
  ~ In x (take (Z.to_nat (bytes.IndexByte b x)) b).
Proof.
  induction b as [|y b IH]; cbn [bytes.IndexByte]; [lia|].
  destruct (Byte.eqb y x) eqn:E; [cbn; tauto|].
  pose proof (IndexByte_bounds b x) as Hb.
  destruct (Z.ltb_spec (bytes.IndexByte b x) 0) as [Hneg|Hpos]; [lia|].
  intros _. replace (Z.to_nat (1 + bytes.IndexByte b x))
    with (S (Z.to_nat (bytes.IndexByte b x))) by lia.
  cbn [take firstn In]. intros [->|Hin]; [|exact (IH Hpos Hin)].
  rewrite (Byte.byte_dec_lb (eq_refl x)) in E. discriminate E.
Qed.

Lemma dropCR_prefix (l : list byte) :
  exists k, l = (bufio.dropCR l ++ k)%list.
Proof.
  unfold bufio.dropCR. destruct (last l) as [c|] eqn:E.
  - destruct (Byte.eqb c CR).
    + apply last_Some in E as [l' ->]. rewrite removelast_last. eauto.
    + exists []. symmetry. apply app_nil_r.
  - exists []. symmetry. apply app_nil_r.
Qed.

Lemma take_prefix (n : nat) (l : list byte) :
  exists k, l = (take n l ++ k)%list.
Proof. exists (drop n l). symmetry. apply take_drop. Qed.

(** The token of the scan is a prefix of the content, without line feed
    and shorter than the token limit. *)
Lemma line_of_facts (b : list byte) :
  (exists rest, b = (line_of b ++ rest)%list)
  /\ ~ In LF (line_of b)
  /\ Z.of_nat (length (line_of b)) < 65536.
Proof.
  pose proof (IndexByte_bounds b LF) as Hb. unfold line_of.
  assert (HM : bufio.MaxScanTokenSize = 65536) by reflexivity.
  destruct (Z.leb_spec 0 (bytes.IndexByte b LF)) as [Hi|Hi];
    destruct (Z.ltb_spec (bytes.IndexByte b LF) bufio.MaxScanTokenSize)
      as [Him|Him]; cbn [andb].
  - destruct (dropCR_prefix (take (Z.to_nat (bytes.IndexByte b LF)) b))
      as [k Hk].
    destruct (take_prefix (Z.to_nat (bytes.IndexByte b LF)) b) as [k' Hk'].
    split; [|split].
    + exists (k ++ k')%list. rewrite app_assoc, <- Hk. exact Hk'.
    + intros Hin. apply (IndexByte_before b LF Hi).
      rewrite Hk. apply in_or_app. left. exact Hin.
    + apply (f_equal (@length byte)) in Hk.
      rewrite length_app, length_take in Hk. lia.
  - destruct (Z.ltb_spec (Z.of_nat (length b)) bufio.MaxScanTokenSize);
      [lia|].
    split; [exists b; reflexivity|]. split; [tauto | cbn; lia].
  - destruct (dropCR_prefix b) as [k Hk].
    destruct (Z.ltb_spec (Z.of_nat (length b)) bufio.MaxScanTokenSize).
    + split; [eauto|]. split.
      * intros Hin. apply (IndexByte_none b LF Hi). rewrite Hk.
        apply in_or_app. left. exact Hin.
      * apply (f_equal (@length byte)) in Hk. rewrite length_app in Hk. lia.
    + split; [exists b; reflexivity|]. split; [tauto | cbn; lia].
  - lia.
Qed.

(** X1.  Whatever the content, the title is a prefix of it, has no line
    feed in it and is shorter than 65536 bytes. *)
Theorem X1_title_is_a_short_prefix (content : list byte) :
  (exists rest,
      content = (list_byte_of_string (firstLine content) ++ rest)%list)
  /\ ~ In LF (list_byte_of_string (firstLine content))
  /\ Z.of_nat (String.length (firstLine content)) < 65536.
Proof.
  rewrite firstLine_line_of, list_byte_of_string_of_list_byte.
  destruct (line_of_facts content) as (Hpre & Hlf & Hlen).
  split; [exact Hpre|]. split; [exact Hlf|].
  assert (Hl : forall l, String.length (string_of_list_byte l) = length l).
  { induction l as [|x l IH]; [reflexivity|]. cbn. rewrite <- IH.
    reflexivity. }
  rewrite Hl. exact Hlen.
Qed.

Lemma line_of_take (b : list byte) :
  line_of (take (Z.to_nat 65536) b) = line_of b.
Proof.
  pose proof (IndexByte_bounds b LF) as Hb. unfold line_of.
  assert (HM : bufio.MaxScanTokenSize = 65536) by reflexivity.
  rewrite IndexByte_take, length_take, Z2Nat.id, HM by lia.
  destruct (Z.leb_spec 0 (bytes.IndexByte b LF)) as [Hi|Hi];
    destruct (Z.ltb_spec (bytes.IndexByte b LF) 65536) as [Him|Him];
    cbn [andb].
  - destruct (Z.leb_spec 0 (bytes.IndexByte b LF)); [|lia].
    destruct (Z.ltb_spec (bytes.IndexByte b LF) 65536); [|lia].
    cbn [andb]. rewrite take_take, Nat.min_l by lia. reflexivity.
  - change (0 <=? -1) with false. cbn [andb].
    destruct (Z.ltb_spec (Z.of_nat (Z.to_nat 65536 `min` length b)) 65536);
      destruct (Z.ltb_spec (Z.of_nat (length b)) 65536); try lia.
    reflexivity.
  - change (0 <=? -1) with false. cbn [andb].
    destruct (Z.ltb_spec (Z.of_nat (Z.to_nat 65536 `min` length b)) 65536);
      destruct (Z.ltb_spec (Z.of_nat (length b)) 65536); try lia.
    + rewrite take_ge by lia. reflexivity.
    + reflexivity.
  - lia.
Qed.

(** X2.  The title depends on the first 65536 bytes of the content only:
    cutting the content there leaves the title as it is. *)
Theorem X2_title_reads_first_64K (content : list byte) :
  firstLine (take (Z.to_nat 65536) content) = firstLine content.
Proof. rewrite !firstLine_line_of, line_of_take. reflexivity. Qed.

(** A scan over a content whose first 65536 bytes hold no line feed and
    that is at least that long ends on [ErrTooLong]. *)
Lemma Scan_too_long (c : Z) (n : nat) (b : list byte) :
  rank c n ->
  bytes.IndexByte b LF < 0 \/ 65536 <= bytes.IndexByte b LF ->
  65536 <= Z.of_nat (length b) ->
  forall fuel, (n + 1 <= fuel)%nat ->
  bufio.Scan fuel (scanning c b)
  = Some (false,
          bufio.setErr (scanning bufio.MaxScanTokenSize b) ErrTooLong).
Proof.
  intros Hr Hi Hlen.
  assert (HM : bufio.MaxScanTokenSize = 65536) by reflexivity.
  induction Hr as [|c n Hc Hr IH]; intros fuel Hfuel;
    (destruct fuel as [|fuel]; [lia|]);
    rewrite Scan_scanning_step by lia.
  - destruct (Z.leb_spec 0 (bytes.IndexByte b LF));
      destruct (Z.ltb_spec (bytes.IndexByte b LF) bufio.MaxScanTokenSize);
      cbn [andb]; try lia.
    all: destruct (Z.ltb_spec (Z.of_nat (length b)) bufio.MaxScanTokenSize);
      [lia|].
    all: destruct (Z.leb_spec bufio.MaxScanTokenSize bufio.MaxScanTokenSize);
      [reflexivity | lia].
  - destruct (Z.leb_spec 0 (bytes.IndexByte b LF));
      destruct (Z.ltb_spec (bytes.IndexByte b LF) c);
      cbn [andb]; try lia.
    all: destruct (Z.ltb_spec (Z.of_nat (length b)) c); [lia|].
    all: destruct (Z.leb_spec bufio.MaxScanTokenSize c); [lia|].
    all: destruct (Z.eqb_spec (Z.of_nat (length b)) c); [lia|].
    all: apply IH; lia.
Qed.

(** X3.  When the first 65536 bytes of the content hold no line feed and
    the content is at least that long, the scan fails with [ErrTooLong];
    [firstLine] does not look at the result of [Scan], and the title of
    this content, which is not empty, is the empty string. *)
Theorem X3_title_of_a_long_line_is_empty (content : list byte) :
  bytes.IndexByte content LF < 0 \/ 65536 <= bytes.IndexByte content LF ->
  65536 <= Z.of_nat (length content) ->
  firstLine content = ""
  /\ (exists s,
        bufio.Scan bufio.scanFuel
          (bufio.NewScanner (bytes.NewReader content)) = Some (false, s)
        /\ bufio.err s = Some ErrTooLong
        /\ bufio.tok s = None).
Proof.
  intros Hi Hlen.
  assert (HS : bufio.Scan bufio.scanFuel
                 (bufio.NewScanner (bytes.NewReader content))
               = Some (false,
                       bufio.setErr (scanning bufio.MaxScanTokenSize content)
                         ErrTooLong)).
  { change (bufio.NewScanner (bytes.NewReader content))
      with (scanning 0 content).
    apply (Scan_too_long 0 5); [apply rank_fresh | assumption..|].
    unfold bufio.scanFuel. lia. }
  split.
  - unfold firstLine. rewrite HS. reflexivity.
  - eexists. split; [exact HS|]. split; reflexivity.
Qed.

Lemma X3_title_of_a_long_line_is_empty_witness :
  firstLine Samples.longLine = "".
Proof.
  apply (X3_title_of_a_long_line_is_empty Samples.longLine).
  - left. vm_compute. reflexivity.
  - vm_compute. discriminate.
Defined.

(** X4.  The title depends on the first line only: what follows the
    first line feed of the content has no part in it. *)
Theorem X4_title_ignores_what_follows (line rest rest' : list byte) :
  ~ In LF line ->
  firstLine (line ++ LF :: rest) = firstLine (line ++ LF :: rest').
Proof.
  intros Hin.
  destruct (Z.ltb_spec (Z.of_nat (length line)) bufio.MaxScanTokenSize).
  - rewrite !firstLine_terminated by assumption. reflexivity.
  - rewrite !firstLine_too_long by assumption. reflexivity.
Qed.

Lemma X4_title_ignores_what_follows_witness :
  firstLine (B "# Welcome" ++ LF :: B "Body text")
  = firstLine (B "# Welcome" ++ LF :: B "Another body").
Proof.
  apply (X4_title_ignores_what_follows (B "# Welcome")).
  vm_compute. intuition discriminate.
Defined.

(** ** The calls of a run *)

(** Every run of the handler, by cases on the answers of the store and of
    the template engine, computed to its response and its trace. *)
Ltac all_runs ds Parse Execute request :=
  unfold Handler, renderPage, getTemplate, GetDoc, ReadAll, log_Printf,
    call, bind, ret;
  let rev := fresh "rev" in
  let d := fresh "tmplDoc" in
  destruct (ds (docIdOf request)) as [rev|?] eqn:?;
  [ destruct (docstore.readErr rev) eqn:?;
    [ | destruct (strings.Contains (docIdOf request) ".") eqn:?;
        [ | destruct (ds tmplDocName) as [d|?] eqn:?;
            [ destruct (docstore.readErr d) eqn:?;
              [ | destruct (Parse "docPage"
                              (string_of_list_byte (docstore.body d)))
                    as [?tmpl|?] eqn:?;
                  [ match goal with
                    | |- context [Execute ?t ?m] =>
                        destruct (Execute t m) as [?b [?|]] eqn:?
                    end | ] ] | ] ] ] | ];
  cbn.

Section Calls.

Variable ds : docstore.DocStore.
Variable ToHTML : list byte -> list byte.
Variable Template : Type.
Variable Parse : string -> string -> result Template.
Variable Execute : Template -> docMetadata -> string * option error.

(** X5.  The handler logs one line when the fetch of the document fails
    and one when the read of its content fails, and nothing else: a
    failure of the template or of the composition is answered 500
    without a line in the log. *)
Theorem X5_what_is_logged (request : events.APIGatewayProxyRequest) :
  logged (snd (Handler ds ToHTML Template Parse Execute request))
  = match ds (docIdOf request) with
    | Err e => [("GetDoc error: ", e)]
    | Ok rev =>
        match docstore.readErr rev with
        | Some e => [("ReadAll error: ", e)]
        | None => []
        end
    end.
Proof. all_runs ds Parse Execute request; reflexivity. Qed.

(** X6.  A response whose status is not 200 is bare: no body, no header,
    not base64, whatever the template had written before it failed.  A
    response with status 200 has the one header Content-Type:
    text/html. *)
Theorem X6_failures_are_bare (request : events.APIGatewayProxyRequest) :
  let resp := fst (fst (Handler ds ToHTML Template Parse Execute request)) in
  (events.StatusCode resp <> 200 ->
   resp = events.mkResponse (events.StatusCode resp) ∅ "" false)
  /\ (events.StatusCode resp = 200 ->
      resp = events.mkResponse 200 {[ "Content-Type" := "text/html" ]}
               (events.Body resp) false).
Proof.
  all_runs ds Parse Execute request;
    (split; [intros H; try reflexivity; exfalso; apply H; reflexivity
            | intros H; try reflexivity; discriminate H]).
Qed.

(** X7.  The store is asked for the document of the request, and then,
    only if that document was fetched and read and its identifier has no
    dot, for "doc-template.html", which is then another identifier:
    never for anything else, and never twice for the same one. *)
Theorem X7_what_is_fetched (request : events.APIGatewayProxyRequest) :
  let docId := docIdOf request in
  let ids :=
    fetched (snd (Handler ds ToHTML Template Parse Execute request)) in
  ids = match ds docId with
        | Ok rev =>
            if notNil (docstore.readErr rev) || strings.Contains docId "."
            then [docId]
            else [docId; "doc-template.html"]
        | Err _ => [docId]
        end
  /\ NoDup ids.
Proof.
  intros docId ids. subst docId ids.
  assert (Hne : strings.Contains (docIdOf request) "." = false ->
                docIdOf request <> "doc-template.html").
  { intros Hdot Heq. rewrite Heq in Hdot. vm_compute in Hdot.
    discriminate Hdot. }
  all_runs ds Parse Execute request;
    (split; [reflexivity|]);
    first [ apply NoDup_singleton
          | apply NoDup_cons_2; [|apply NoDup_singleton];
            intros Hin; apply list_elem_of_In in Hin;
            destruct Hin as [Hin|[]]; apply Hne; auto ].
Qed.

(** X8.  The markdown conversion runs once, on the whole content, in the
    runs that fetched and read a document whose identifier has no dot,
    also when the template then fails; it never runs in the others. *)
Theorem X8_what_is_converted (request : events.APIGatewayProxyRequest) :
  converted (snd (Handler ds ToHTML Template Parse Execute request))
  = match ds (docIdOf request) with
    | Ok rev =>
        if notNil (docstore.readErr rev)
           || strings.Contains (docIdOf request) "."
        then []
        else [docstore.body rev]
    | Err _ => []
    end.
Proof. all_runs ds Parse Execute request; reflexivity. Qed.

End Calls.

(** ** What a run depends on *)

(** X9.  A document whose identifier has a dot is served without the
    template and without the collaborators: two deployments whose stores
    agree on that document answer the request alike, whatever their
    template document, markdown conversion and template engine. *)
Theorem X9_raw_needs_no_template
    (ds ds' : docstore.DocStore) (ToHTML ToHTML' : list byte -> list byte)
    (Template Template' : Type)
    (Parse : string -> string -> result Template)
    (Parse' : string -> string -> result Template')
    (Execute : Template -> docMetadata -> string * option error)
    (Execute' : Template' -> docMetadata -> string * option error)
    (request : events.APIGatewayProxyRequest) :
  ds (docIdOf request) = ds' (docIdOf request) ->
  has_dot (docIdOf request) ->
  Handler ds ToHTML Template Parse Execute request
  = Handler ds' ToHTML' Template' Parse' Execute' request.
Proof.
  intros Hds Hdot. apply Contains_dot_spec in Hdot.
  unfold Handler, GetDoc, ReadAll, log_Printf, call, bind, ret.
  rewrite <- Hds, Hdot.
  destruct (ds (docIdOf request)) as [rev|e]; [|reflexivity].
  destruct (docstore.readErr rev); reflexivity.
Qed.

Lemma X9_raw_needs_no_template_witness :
  Handler Fixture.store Fixture.ToHTML template.Tree Fixture.Parse
    template.Execute (Fixture.request "notes.txt")
  = Handler Fixture.store_no_template (fun src => src) unit
      (fun _ _ => Err NotFound) (fun _ _ => ("", None))
      (Fixture.request "notes.txt").
Proof.
  apply X9_raw_needs_no_template.
  - reflexivity.
  - vm_compute. intuition.
Defined.

(** X10.  The answer depends on the store through two documents only,
    that of the request and the template: two stores that agree on these
    two identifiers give the same run. *)
Theorem X10_two_documents_decide
    (ds ds' : docstore.DocStore) (ToHTML : list byte -> list byte)
    (Template : Type) (Parse : string -> string -> result Template)
    (Execute : Template -> docMetadata -> string * option error)
    (request : events.APIGatewayProxyRequest) :
  ds (docIdOf request) = ds' (docIdOf request) ->
  ds "doc-template.html" = ds' "doc-template.html" ->
  Handler ds ToHTML Template Parse Execute request
  = Handler ds' ToHTML Template Parse Execute request.
Proof.
  intros Hdoc Htmpl. change "doc-template.html" with tmplDocName in Htmpl.
  unfold Handler, renderPage, getTemplate, GetDoc, ReadAll, log_Printf,
    call, bind, ret.
  rewrite <- Hdoc, <- Htmpl. reflexivity.
Qed.

Lemma X10_two_documents_decide_witness :
  Fixture.handle (Fixture.request "intro")
  = Handler
      (fun id => if String.eqb id "notes.txt" then Err NotFound
                 else Fixture.store id)
      Fixture.ToHTML template.Tree Fixture.Parse template.Execute
      (Fixture.request "intro").
Proof.
  apply X10_two_documents_decide; reflexivity.
Defined.

(** X11.  [getTemplate] asks the store for "doc-template.html" and for
    nothing else; it parses at most one source, the content of that
    document, and only once it has read it without error; and it returns
    a template exactly when the fetch, the read and the parse have all
    succeeded. *)
Theorem X11_getTemplate_calls
    (ds : docstore.DocStore) (Template : Type)
    (Parse : string -> string -> result Template) :
  let run := getTemplate ds Template Parse in
  fetched (snd run) = ["doc-template.html"]
  /\ parsed (snd run)
     = match ds "doc-template.html" with
       | Ok tmplDoc =>
           if notNil (docstore.readErr tmplDoc) then []
           else [string_of_list_byte (docstore.body tmplDoc)]
       | Err _ => []
       end
  /\ (forall tmpl : Template,
        fst run = Ok tmpl <->
        exists tmplDoc,
          ds "doc-template.html" = Ok tmplDoc
          /\ docstore.readErr tmplDoc = None
          /\ Parse "docPage" (string_of_list_byte (docstore.body tmplDoc))
             = Ok tmpl).
Proof.
  change "doc-template.html" with tmplDocName.
  unfold getTemplate, GetDoc, ReadAll, call, bind, ret.
  destruct (ds tmplDocName) as [d|e] eqn:Hds.
  - destruct (docstore.readErr d) as [e|] eqn:Hrd; cbn.
    + repeat split; try reflexivity; [discriminate|].
      intros (d' & Hd' & Hr' & _). congruence.
    + repeat split; try reflexivity.
      * intros Hp. exists d. auto.
      * intros (d' & Hd' & _ & Hp). congruence.
  - cbn. repeat split; try reflexivity; [discriminate|].
    intros (d' & Hd' & _). congruence.
Qed.

(** X12.  A request without the path parameter "docId" is handled as the
    request of the empty identifier: the store is asked for it, a failed
    fetch is answered 404, and a document stored under it is rendered
    with the template, never passed through, the empty identifier having
    no dot. *)
Theorem X12_missing_path_parameter
    (ds : docstore.DocStore) (ToHTML : list byte -> list byte)
    (Template : Type) (Parse : string -> string -> result Template)
    (Execute : Template -> docMetadata -> string * option error)
    (request : events.APIGatewayProxyRequest) :
  events.PathParameters request !! "docId" = None ->
  let run := Handler ds ToHTML Template Parse Execute request in
  (exists rest, snd run = (EvGetDoc "" :: rest)%list)
  /\ (forall e, ds "" = Err e -> fst run = (statusOnly 404, None))
  /\ (forall rev,
        ds "" = Ok rev ->
        docstore.readErr rev = None ->
        converted (snd run) = [docstore.body rev]
        /\ fetched (snd run) = [""; "doc-template.html"]).
Proof.
  intros Hkey run. subst run.
  assert (Hid : docIdOf request = "").
  { unfold docIdOf. rewrite Hkey. reflexivity. }
  split; [|split].
  - all_runs ds Parse Execute request; rewrite Hid; eexists; reflexivity.
  - intros e He. rewrite <- Hid in He.
    unfold Handler, GetDoc, log_Printf, call, bind, ret. rewrite He.
    reflexivity.
  - intros rev Hds Hrd. rewrite <- Hid in Hds.
    assert (Hdot : strings.Contains (docIdOf request) "." = false)
      by (rewrite Hid; reflexivity).
    all_runs ds Parse Execute request; try congruence;
      rewrite Hid; split; try reflexivity; congruence.
Qed.

Lemma X12_missing_path_parameter_witness :
  fst (Fixture.handle (events.mkRequest ∅)) = (statusOnly 404, None).
Proof.
  assert (Hkey : events.PathParameters (events.mkRequest ∅) !! "docId"
                 = None) by reflexivity.
  apply (proj1 (proj2 (X12_missing_path_parameter Fixture.store
           Fixture.ToHTML template.Tree Fixture.Parse template.Execute
           (events.mkRequest ∅) Hkey)) NotFound).
  reflexivity.
Defined.

(** ** The page of a templated request *)

(** X13.  From the request to the page, with templates of text and field
    placeholders.  When the document and the template are fetched and
    read, the identifier has no dot and the template parses to a tree
    with the four placeholders: if the tree refers to fields of the
    metadata only, the answer is 200 with a nil error and its body holds
    the first line of the stored content, the converted content, the
    timestamp of the revision in the RFC 850 layout and the version in
    decimal; otherwise the answer is a bare 500 with the error of the
    execution, whatever the template had written. *)
Theorem X13_page_of_a_templated_request
    (ds : docstore.DocStore) (ToHTML : list byte -> list byte)
    (Parse : string -> string -> result template.Tree)
    (request : events.APIGatewayProxyRequest)
    (rev tmplDoc : docstore.Revision) (tree : template.Tree) :
  ds (docIdOf request) = Ok rev ->
  docstore.readErr rev = None ->
  ~ has_dot (docIdOf request) ->
  ds "doc-template.html" = Ok tmplDoc ->
  docstore.readErr tmplDoc = None ->
  Parse "docPage" (string_of_list_byte (docstore.body tmplDoc)) = Ok tree ->
  has_placeholders tree ->
  let run :=
    fst (Handler ds ToHTML template.Tree Parse template.Execute request) in
  let page := events.Body (fst run) in
  (Forall plain tree ->
   events.StatusCode (fst run) = 200
   /\ snd run = None
   /\ strings.Contains page (firstLine (docstore.body rev)) = true
   /\ strings.Contains page
        (string_of_list_byte (ToHTML (docstore.body rev))) = true
   /\ strings.Contains page
        (time.Format (docstore.Timestamp (docstore.Metadata rev))
           time.RFC850) = true
   /\ strings.Contains page
        (strconv.Itoa (docstore.Id (docstore.Metadata rev))) = true)
  /\ (~ Forall plain tree ->
      fst run = statusOnly 500 /\ snd run <> None).
Proof.
  intros Hds Hrd Hdot Htd Htr Hp (HT & HB & HS & HV) run page.
  assert (Hno : strings.Contains (docIdOf request) "." = false).
  { destruct (strings.Contains (docIdOf request) ".") eqn:E; [|reflexivity].
    exfalso. apply Hdot, Contains_dot_spec, E. }
  change "doc-template.html" with tmplDocName in Htd.
  pose proof (template_parsed ds template.Tree Parse tmplDoc Htd Htr)
    as Htmpl.
  rewrite Hp in Htmpl.
  assert (Hrun : run
    = match template.Execute tree
              (pageMetadata rev (docstore.body rev)
                 (ToHTML (docstore.body rev))) with
      | (_, Some e) => (statusOnly 500, Some e)
      | (b, None) => (respondHTML b, None)
      end).
  { subst run.
    rewrite (run_rendered ds ToHTML template.Tree Parse template.Execute
               request rev) by assumption.
    erewrite render_executed by exact Htmpl. reflexivity. }
  subst page. rewrite Hrun. clear Hrun run.
  set (meta := pageMetadata rev (docstore.body rev)
                 (ToHTML (docstore.body rev))).
  split.
  - intros Hplain. pose proof (Execute_plain tree meta Hplain) as Hok.
    pose proof (fun name v => Execute_prints tree meta name v Hok) as Hpr.
    destruct (template.Execute tree meta) as [b e]. cbn [fst snd] in *.
    subst e. cbn [fst snd events.StatusCode events.Body respondHTML].
    rewrite !Contains_spec. repeat split.
    + apply (Hpr "Title"); auto.
    + apply (Hpr "DocBody"); auto.
    + apply (Hpr "Timestamp"); auto.
    + apply (Hpr "Version"); auto.
  - intros Hnot.
    destruct (template.Execute tree meta) as [b [e|]] eqn:E.
    + split; [reflexivity | discriminate].
    + exfalso. apply Hnot. apply (Execute_only_plain tree meta).
      rewrite E. reflexivity.
Qed.

Lemma X13_page_of_a_templated_request_witness :
  let run := fst (Fixture.handle (Fixture.request "intro")) in
  let page := events.Body (fst run) in
  events.StatusCode (fst run) = 200
  /\ snd run = None
  /\ strings.Contains page "# Welcome" = true
  /\ strings.Contains page
       (string_of_list_byte (Fixture.ToHTML Fixture.intro)) = true
  /\ strings.Contains page "Tuesday, 04-May-21 10:00:00 UTC" = true
  /\ strings.Contains page "3" = true.
Proof.
  assert (Hdot : ~ has_dot (docIdOf (Fixture.request "intro")))
    by (vm_compute; intuition discriminate).
  assert (Hph : has_placeholders Fixture.tmplTree)
    by (unfold has_placeholders, Fixture.tmplTree; cbn [In]; tauto).
  apply (proj1 (X13_page_of_a_templated_request Fixture.store Fixture.ToHTML
           Fixture.Parse (Fixture.request "intro")
           (Fixture.revision Fixture.intro)
           (Fixture.revision (B Fixture.tmplSrc)) Fixture.tmplTree
           eq_refl eq_refl Hdot eq_refl eq_refl eq_refl Hph)).
  unfold Fixture.tmplTree. repeat constructor.
Defined.

(** X14.  The metadata a template is executed with come from the
    document fetched for the request: the title is the first line of its
    stored content (not of the converted one), hence a prefix of that
    content without line feed; the body is the converted content; the
    version is the identifier of the revision, as it is. *)
Theorem X14_metadata_of_the_page
    (ds : docstore.DocStore) (ToHTML : list byte -> list byte)
    (Template : Type) (Parse : string -> string -> result Template)
    (Execute : Template -> docMetadata -> string * option error)
    (request : events.APIGatewayProxyRequest) (meta : docMetadata) :
  In (EvExecute meta)
     (snd (Handler ds ToHTML Template Parse Execute request)) ->
  exists rev,
    ds (docIdOf request) = Ok rev
    /\ Title meta = firstLine (docstore.body rev)
    /\ (exists rest,
          docstore.body rev
          = (list_byte_of_string (Title meta) ++ rest)%list)
    /\ ~ In LF (list_byte_of_string (Title meta))
    /\ DocBody meta = string_of_list_byte (ToHTML (docstore.body rev))
    /\ Version meta = docstore.Id (docstore.Metadata rev).
Proof.
  intros Hin. apply executed_metadata in Hin as (rev & Hds & ->).
  exists rev. cbn [Title DocBody Version pageMetadata].
  rewrite firstLine_line_of, list_byte_of_string_of_list_byte.
  destruct (line_of_facts (docstore.body rev)) as (Hpre & Hlf & _).
  repeat split; assumption || reflexivity.
Qed.

Lemma X14_metadata_of_the_page_witness :
  exists rev,
    Fixture.store (docIdOf (Fixture.request "intro")) = Ok rev
    /\ Title (pageMetadata (Fixture.revision Fixture.intro) Fixture.intro
                (Fixture.ToHTML Fixture.intro))
       = firstLine (docstore.body rev).
Proof.
  destruct (X14_metadata_of_the_page Fixture.store Fixture.ToHTML
              template.Tree Fixture.Parse template.Execute
              (Fixture.request "intro")
              (pageMetadata (Fixture.revision Fixture.intro) Fixture.intro
                 (Fixture.ToHTML Fixture.intro)))
    as (rev & Hds & Ht & _).
  - vm_compute. do 6 right. left. reflexivity.
  - exists rev. split; assumption.
Defined.

(** X15.  A content that starts with a line break has an empty title,
    whatever follows: the first line is blank, and [firstLine] does not
    look for the first line that is not. *)
Theorem X15_blank_first_line (rest : list byte) :
  firstLine (LF :: rest) = "" /\ firstLine (CR :: LF :: rest) = "".
Proof.
  split.
  - apply (firstLine_terminated [] rest); [intros [] | reflexivity].
  - apply (firstLine_terminated [CR] rest); [|reflexivity].
    intros [H|[]]. discriminate H.
Qed.

(** ** A long first line with a Windows line ending *)

(** C10.  The code at a content the claim covers and the code gets
    wrong: a first line of 65535 bytes ended by a carriage return and a
    line feed.  The line feed is the 65537th byte, the buffer of the
    scanner is full before it is seen, [Scan] fails with [ErrTooLong],
    and [firstLine], which does not look at the result of [Scan],
    returns the empty string: not the line with its carriage return
    stripped. *)
Theorem C10_long_crlf_line_title_lost :
  let line := repeat "a"%byte (Z.to_nat 65535) in
  let content := (line ++ [CR; LF] ++ B "World")%list in
  ~ In LF line
  /\ firstLine content = ""
  /\ firstLine content <> string_of_list_byte line
  /\ (exists s,
        bufio.Scan bufio.scanFuel
          (bufio.NewScanner (bytes.NewReader content)) = Some (false, s)
        /\ bufio.err s = Some ErrTooLong).
Proof.
  intros line content.
  assert (Hin : ~ In LF line).
  { intros Hin. apply repeat_spec in Hin. discriminate Hin. }
  assert (Hlen : length line = Z.to_nat 65535) by apply repeat_length.
  assert (Hin' : ~ In LF (line ++ [CR])).
  { rewrite in_app_iff. cbn [In].
    intros [H|[H|[]]]; [auto | discriminate H]. }
  assert (Hidx : bytes.IndexByte content LF = 65536).
  { subst content.
    change (line ++ [CR; LF] ++ B "World")%list
      with (line ++ [CR] ++ LF :: B "World")%list.
    rewrite app_assoc, IndexByte_found by exact Hin'.
    rewrite length_app, Hlen. cbn [length]. lia. }
  assert (Hlong : 65536 <= Z.of_nat (length content)).
  { subst content. rewrite !length_app, Hlen. cbn [length]. lia. }
  assert (HS : bufio.Scan bufio.scanFuel
                 (bufio.NewScanner (bytes.NewReader content))
               = Some (false,
                       bufio.setErr (scanning bufio.MaxScanTokenSize content)
                         ErrTooLong)).
  { change (bufio.NewScanner (bytes.NewReader content))
      with (scanning 0 content).
    apply (Scan_too_long 0 5); [apply rank_fresh | lia | exact Hlong |].
    unfold bufio.scanFuel. lia. }
  assert (Hempty : firstLine content = "").
  { unfold firstLine. rewrite HS. reflexivity. }
  split; [exact Hin|]. split; [exact Hempty|]. split.
  - rewrite Hempty. change "" with (string_of_list_byte []).
    intros H. apply string_of_list_byte_inj in H.
    apply (f_equal (@length byte)) in H. rewrite Hlen in H.
    cbn [length] in H. lia.
  - eexists. split; [exact HS | reflexivity].
Qed.
